(** * Mini issue tracker: authorization and persistence core

    A shallow embedding of the backend of the issue tracker
    (backend/app): the SQLAlchemy models, the repositories, the
    password and token handlers, the authentication dependency and the
    project, issue and authentication services.

    Conventions.
    - Integers (primary keys, user ids) are [Z]; a [DateTime] column is
      the number of seconds since the epoch, in [Z].
    - A table is the list of its rows; a query is the list of rows it
      selects: [.filter] is [filter], [.first()] is [head], [.all()] is
      the list itself.
    - A Python call either returns or raises: [pyresult].  A service
      that may write to the database also returns the database it
      leaves behind.
    - The database clock ([func.now()]) and the wall clock
      ([datetime.utcnow()]) are read through an explicit argument [now].
    - The hashing library (passlib) and the JWT library (python-jose)
      are not part of the application: the handlers take them through
      the classes [CryptContext] and [Jose]. *)

From Stdlib Require Import ZArith String List.
From stdpp Require Import base option list sorting strings gmap.

Open Scope string_scope.
Open Scope Z_scope.

(** ** Exceptions (utils/exceptions.py) *)

(** The HTTP exception classes of the application, each carrying its
    [detail]; and the other exceptions that the modelled code can meet. *)
Inductive exn : Type :=
  | NotFoundException (detail : string)
  | UnauthorizedException (detail : string)
  | ForbiddenException (detail : string)
  | BadRequestException (detail : string)
  | ConflictException (detail : string)
  | JWTError (msg : string)
      (* jose.JWTError and its subclasses *)
  | AttributeError (msg : string)
      (* attribute access on None *)
  | OtherError (msg : string).
      (* any other exception raised by a library or by the database *)

(** [status_code] of the response: the one given to [HTTPException] by
    the class, 500 for an exception that is not an [HTTPException]. *)
Definition status_code (e : exn) : Z :=
  match e with
  | NotFoundException _ => 404
  | UnauthorizedException _ => 401
  | ForbiddenException _ => 403
  | BadRequestException _ => 400
  | ConflictException _ => 409
  | JWTError _ | AttributeError _ | OtherError _ => 500
  end.

Inductive pyresult (A : Type) : Type :=
  | Return (a : A)
  | Raise (e : exn).
Arguments Return {A} a.
Arguments Raise {A} e.

(** Sequencing of calls: an exception raised by the first call is
    propagated.  This gives stdpp's notation [x ← r; k]. *)
Global Instance pyresult_ret : MRet pyresult := λ A a, Return a.
Global Instance pyresult_bind : MBind pyresult := λ A B k r,
  match r with
  | Return a => k a
  | Raise e => Raise e
  end.

(** The outcome of a request is Forbidden when the service raised
    [ForbiddenException]. *)
Definition is_Forbidden {A} (r : pyresult A) : Prop :=
  ∃ detail, r = Raise (ForbiddenException detail).

(** ** Models (models/user.py, models/project.py, models/issue.py) *)

Inductive IssueStatus : Type := OPEN | IN_PROGRESS | CLOSED.
Inductive IssuePriority : Type := LOW | MEDIUM | HIGH.

Global Instance IssueStatus_eq_dec : EqDecision IssueStatus.
Proof. solve_decision. Defined.
Global Instance IssuePriority_eq_dec : EqDecision IssuePriority.
Proof. solve_decision. Defined.

(** The canonical string of an enumeration member (its [str] value). *)
Definition IssueStatus_value (s : IssueStatus) : string :=
  match s with
  | OPEN => "Open"
  | IN_PROGRESS => "In Progress"
  | CLOSED => "Closed"
  end.

Definition IssuePriority_value (p : IssuePriority) : string :=
  match p with
  | LOW => "Low"
  | MEDIUM => "Medium"
  | HIGH => "High"
  end.

Record User : Type := mkUser {
  user_id : Z;
  user_name : string;
  user_email : string;
  user_hashed_password : string;
  user_created_at : Z;
  user_updated_at : option Z
}.

Record Project : Type := mkProject {
  project_id_ : Z;                       (* id *)
  project_name : string;
  project_description : option string;   (* nullable *)
  project_created_by : Z;                (* the owner *)
  project_created_at : Z;
  project_updated_at : option Z          (* onupdate=now(), no default *)
}.

Record Issue : Type := mkIssue {
  issue_id_ : Z;                         (* id *)
  issue_project_id : Z;
  issue_title : string;
  issue_description : option string;     (* nullable *)
  issue_status : IssueStatus;
  issue_priority : IssuePriority;
  issue_created_by : Z;
  issue_created_at : Z;
  issue_updated_at : Z                   (* server_default and onupdate *)
}.

Global Instance User_eq_dec : EqDecision User.
Proof. solve_decision. Defined.
Global Instance Project_eq_dec : EqDecision Project.
Proof. solve_decision. Defined.
Global Instance Issue_eq_dec : EqDecision Issue.
Proof. solve_decision. Defined.

(** The database: the three tables and the sequences of their serial
    primary keys. *)
Record Database : Type := mkDatabase {
  users : list User;
  projects : list Project;
  issues : list Issue;
  users_seq : Z;
  projects_seq : Z;
  issues_seq : Z
}.

(** ** Schemas of the partial updates (schemas/issue.py, schemas/project.py) *)

(** A field of a pydantic model whose fields all default to [None]:
    either the request did not send it, or it sent a value, which may be
    [null].  [model_dump(exclude_unset=True)] keeps the second kind. *)
Inductive field (A : Type) : Type :=
  | Unset
  | Sent (value : option A).
Arguments Unset {A}.
Arguments Sent {A} value.

Record IssueUpdate : Type := mkIssueUpdate {
  upd_title : field string;
  upd_description : field string;
  upd_status : field IssueStatus;
  upd_priority : field IssuePriority
}.

Record ProjectUpdate : Type := mkProjectUpdate {
  pupd_name : field string;
  pupd_description : field string
}.

(** An item of the dictionary that [model_dump] builds from an
    [IssueUpdate]: the name of the field and its value, [None] for
    [null]. *)
Inductive issue_item : Type :=
  | item_title (value : option string)
  | item_description (value : option string)
  | item_status (value : option IssueStatus)
  | item_priority (value : option IssuePriority).

Inductive project_item : Type :=
  | item_name (value : option string)
  | item_project_description (value : option string).

Definition dump_field {A I} (mk : option A → I) (f : field A) : list I :=
  match f with
  | Unset => []
  | Sent value => [mk value]
  end.

(** [issue_data.model_dump(exclude_unset=True)]: the fields that were
    sent, in the order of their declaration. *)
Definition IssueUpdate_model_dump (issue_data : IssueUpdate) : list issue_item :=
  dump_field item_title (upd_title issue_data) ++
  dump_field item_description (upd_description issue_data) ++
  dump_field item_status (upd_status issue_data) ++
  dump_field item_priority (upd_priority issue_data).

Definition ProjectUpdate_model_dump (project_data : ProjectUpdate) : list project_item :=
  dump_field item_name (pupd_name project_data) ++
  dump_field item_project_description (pupd_description project_data).

Record IssueCreate : Type := mkIssueCreate {
  new_title : string;
  new_description : option string;
  new_status : IssueStatus;              (* default OPEN *)
  new_priority : IssuePriority           (* default MEDIUM *)
}.

Record ProjectCreate : Type := mkProjectCreate {
  new_name : string;
  new_project_description : option string
}.

(** The response schemas [IssueResponse] and [ProjectResponse] list
    exactly the columns of their model ([from_attributes=True]), so
    [model_validate] is the identity on a row. *)
Definition IssueResponse : Type := Issue.
Definition ProjectResponse : Type := Project.
Definition IssueResponse_model_validate (i : Issue) : IssueResponse := i.
Definition ProjectResponse_model_validate (p : Project) : ProjectResponse := p.

(** ** The generic repository (repositories/base.py) *)

(** What [BaseRepository] needs from [self.model]: the primary key, and
    what the column declarations make the database do when a row is
    updated ([onupdate=func.now()] on [updated_at]). *)
Class Model (M : Type) : Type := {
  pk : M → Z;
  onupdate : Z → M → M;
  #[global] Model_eq_dec :: EqDecision M
}.

(** Attribute assignment from the items of an update dictionary. *)
Class Attrs (M Item : Type) : Type := {
  value_is_None : Item → bool;
  setattr : M → Item → M
}.

Section BaseRepository.
Context {M : Type} `{Model M}.

(** [db.query(self.model).filter(self.model.id == id).first()] *)
Definition get_by_id (table : list M) (id : Z) : option M :=
  head (filter (λ row, pk row = id) table).

(** [db.query(self.model).offset(skip).limit(limit).all()] *)
Definition get_all (table : list M) (skip limit : nat) : list M :=
  take limit (drop skip table).

(** The loop of [update]: every item of [obj_in] whose value is not
    [None] is assigned to [db_obj], in the order of the dictionary. *)
Definition assign_items {Item} `{Attrs M Item}
    (db_obj : M) (obj_in : list Item) : M :=
  fold_left (λ obj item, if value_is_None item then obj else setattr obj item)
            obj_in db_obj.

(** [db.commit()] after the assignments.  The session flushes an
    UPDATE only when an attribute has a net change; the UPDATE then
    also applies the [onupdate] defaults of the model. *)
Definition flush (now : Z) (loaded assigned : M) : M :=
  if decide (assigned = loaded) then loaded else onupdate now assigned.

(** The UPDATE statement: the row with the primary key of [obj]
    becomes [obj]. *)
Definition write_row (table : list M) (obj : M) : list M :=
  (λ row, if decide (pk row = pk obj) then obj else row) <$> table.

(** [update(db, db_obj, obj_in)]: the table after the commit and the
    refreshed object.  [db_obj] is a row that the caller has loaded
    from [table]. *)
Definition update {Item} `{Attrs M Item}
    (now : Z) (table : list M) (db_obj : M) (obj_in : list Item) : list M * M :=
  let obj := flush now db_obj (assign_items db_obj obj_in) in
  (write_row table obj, obj).

(** [delete(db, id)] on the table of the model: [True] and the table
    without the row if it was found, [False] otherwise. *)
Definition delete (table : list M) (id : Z) : list M * bool :=
  match head (filter (λ row, pk row = id) table) with
  | Some obj => (filter (λ row, pk row ≠ pk obj) table, true)
  | None => (table, false)
  end.
End BaseRepository.

(** ** The three models as instances *)

Definition User_touch (now : Z) (u : User) : User :=
  mkUser (user_id u) (user_name u) (user_email u) (user_hashed_password u)
         (user_created_at u) (Some now).

Definition Project_touch (now : Z) (p : Project) : Project :=
  mkProject (project_id_ p) (project_name p) (project_description p)
            (project_created_by p) (project_created_at p) (Some now).

Definition Issue_touch (now : Z) (i : Issue) : Issue :=
  mkIssue (issue_id_ i) (issue_project_id i) (issue_title i)
          (issue_description i) (issue_status i) (issue_priority i)
          (issue_created_by i) (issue_created_at i) now.

Global Instance User_Model : Model User :=
  {| pk := user_id; onupdate := User_touch |}.
Global Instance Project_Model : Model Project :=
  {| pk := project_id_; onupdate := Project_touch |}.
Global Instance Issue_Model : Model Issue :=
  {| pk := issue_id_; onupdate := Issue_touch |}.

Definition issue_item_is_None (item : issue_item) : bool :=
  match item with
  | item_title None | item_description None
  | item_status None | item_priority None => true
  | _ => false
  end.

(** [setattr(db_obj, field, value)].  [update] calls it for values that
    are not [None] only; on the nullable [description], [None] would
    clear the column. *)
Definition Issue_setattr (i : Issue) (item : issue_item) : Issue :=
  match item with
  | item_title (Some v) =>
      mkIssue (issue_id_ i) (issue_project_id i) v (issue_description i)
              (issue_status i) (issue_priority i) (issue_created_by i)
              (issue_created_at i) (issue_updated_at i)
  | item_description (Some v) =>
      mkIssue (issue_id_ i) (issue_project_id i) (issue_title i) (Some v)
              (issue_status i) (issue_priority i) (issue_created_by i)
              (issue_created_at i) (issue_updated_at i)
  | item_status (Some v) =>
      mkIssue (issue_id_ i) (issue_project_id i) (issue_title i)
              (issue_description i) v (issue_priority i) (issue_created_by i)
              (issue_created_at i) (issue_updated_at i)
  | item_priority (Some v) =>
      mkIssue (issue_id_ i) (issue_project_id i) (issue_title i)
              (issue_description i) (issue_status i) v (issue_created_by i)
              (issue_created_at i) (issue_updated_at i)
  | item_title None =>
      i   (* title is not nullable: the guard of [update] never lets
             None reach the column *)
  | item_description None =>
      mkIssue (issue_id_ i) (issue_project_id i) (issue_title i) None
              (issue_status i) (issue_priority i) (issue_created_by i)
              (issue_created_at i) (issue_updated_at i)
  | item_status None | item_priority None =>
      i   (* not nullable, as for the title *)
  end.

Global Instance Issue_Attrs : Attrs Issue issue_item :=
  {| value_is_None := issue_item_is_None; setattr := Issue_setattr |}.

Definition project_item_is_None (item : project_item) : bool :=
  match item with
  | item_name None | item_project_description None => true
  | _ => false
  end.

Definition Project_setattr (p : Project) (item : project_item) : Project :=
  match item with
  | item_name (Some v) =>
      mkProject (project_id_ p) v (project_description p)
                (project_created_by p) (project_created_at p)
                (project_updated_at p)
  | item_name None =>
      p   (* name is not nullable: the guard of [update] never lets
             None reach the column *)
  | item_project_description v =>
      mkProject (project_id_ p) (project_name p) v
                (project_created_by p) (project_created_at p)
                (project_updated_at p)
  end.

Global Instance Project_Attrs : Attrs Project project_item :=
  {| value_is_None := project_item_is_None; setattr := Project_setattr |}.

(** ** The repositories of the models
    (repositories/user.py, repositories/project.py, repositories/issue.py) *)

Module user_repository.
(** [db.query(User).filter(User.email == email).first()] *)
Definition get_by_email (db : Database) (email : string) : option User :=
  head (filter (λ u, user_email u = email) (users db)).

(** [create]: the row gets the next value of the sequence and the
    time of the database as [created_at]. *)
Definition create_user (now : Z) (db : Database)
    (name email hashed_password : string) : Database * User :=
  let db_obj := mkUser (users_seq db) name email hashed_password now None in
  (mkDatabase (users db ++ [db_obj]) (projects db) (issues db)
              (users_seq db + 1) (projects_seq db) (issues_seq db),
   db_obj).
End user_repository.

Module project_repository.
Definition get_by_id (db : Database) (id : Z) : option Project :=
  get_by_id (projects db) id.

(** [db.query(Project).filter(Project.created_by == user_id).all()] *)
Definition get_user_projects (db : Database) (user_id : Z) : list Project :=
  filter (λ p, project_created_by p = user_id) (projects db).

Definition create_project (now : Z) (db : Database)
    (name : string) (description : option string) (user_id : Z)
    : Database * Project :=
  let db_obj := mkProject (projects_seq db) name description user_id now None in
  (mkDatabase (users db) (projects db ++ [db_obj]) (issues db)
              (users_seq db) (projects_seq db + 1) (issues_seq db),
   db_obj).

Definition update (now : Z) (db : Database) (db_obj : Project)
    (obj_in : list project_item) : Database * Project :=
  let '(table, obj) := update now (projects db) db_obj obj_in in
  (mkDatabase (users db) table (issues db)
              (users_seq db) (projects_seq db) (issues_seq db),
   obj).

(** [delete]: the relationship [issues] of the model has
    [cascade="all, delete-orphan"], so the issues of the deleted
    project go with it. *)
Definition delete (db : Database) (id : Z) : Database * bool :=
  match delete (projects db) id with
  | (table, true) =>
      (mkDatabase (users db) table
                  (filter (λ i, issue_project_id i ≠ id) (issues db))
                  (users_seq db) (projects_seq db) (issues_seq db),
       true)
  | (_, false) => (db, false)
  end.
End project_repository.

(** [ORDER BY created_at DESC]: of two rows, the one created later comes
    first. *)
Definition created_at_desc (a b : Issue) : Prop :=
  issue_created_at b ≤ issue_created_at a.

Global Instance created_at_desc_dec : RelDecision created_at_desc.
Proof. intros a b. unfold created_at_desc. apply _. Defined.

Module issue_repository.
Definition get_by_id (db : Database) (id : Z) : option Issue :=
  get_by_id (issues db) id.

(** The query of [get_project_issues].  [if status:] holds exactly
    when a filter was given: every member of the enumerations is a
    non-empty string. *)
Definition get_project_issues (db : Database) (project_id : Z)
    (status : option IssueStatus) (priority : option IssuePriority)
    : list Issue :=
  let query := filter (λ i, issue_project_id i = project_id) (issues db) in
  let query :=
    match status with
    | Some s => filter (λ i, issue_status i = s) query
    | None => query
    end in
  let query :=
    match priority with
    | Some p => filter (λ i, issue_priority i = p) query
    | None => query
    end in
  merge_sort created_at_desc query.

Definition create_issue (now : Z) (db : Database) (project_id : Z)
    (title : string) (description : option string)
    (status : IssueStatus) (priority : IssuePriority) (user_id : Z)
    : Database * Issue :=
  let db_obj := mkIssue (issues_seq db) project_id title description
                        status priority user_id now now in
  (mkDatabase (users db) (projects db) (issues db ++ [db_obj])
              (users_seq db) (projects_seq db) (issues_seq db + 1),
   db_obj).

Definition update (now : Z) (db : Database) (db_obj : Issue)
    (obj_in : list issue_item) : Database * Issue :=
  let '(table, obj) := update now (issues db) db_obj obj_in in
  (mkDatabase (users db) (projects db) table
              (users_seq db) (projects_seq db) (issues_seq db),
   obj).

Definition delete (db : Database) (id : Z) : Database * bool :=
  let '(table, found) := delete (issues db) id in
  (mkDatabase (users db) (projects db) table
              (users_seq db) (projects_seq db) (issues_seq db),
   found).
End issue_repository.

(** ** The project service (services/project.py) *)

Module project_service.
Definition get_user_projects (db : Database) (user : User)
    : list ProjectResponse :=
  ProjectResponse_model_validate <$>
    project_repository.get_user_projects db (user_id user).

Definition get_project (db : Database) (project_id : Z) (user : User)
    : pyresult ProjectResponse :=
  match project_repository.get_by_id db project_id with
  | None => Raise (NotFoundException "Project not found")
  | Some project =>
      if decide (project_created_by project ≠ user_id user)
      then Raise (ForbiddenException "You don't have access to this project")
      else Return (ProjectResponse_model_validate project)
  end.

Definition create_project (now : Z) (db : Database)
    (project_data : ProjectCreate) (user : User)
    : pyresult ProjectResponse * Database :=
  let '(db', project) :=
    project_repository.create_project now db (new_name project_data)
      (new_project_description project_data) (user_id user) in
  (Return (ProjectResponse_model_validate project), db').

Definition update_project (now : Z) (db : Database) (project_id : Z)
    (project_data : ProjectUpdate) (user : User)
    : pyresult ProjectResponse * Database :=
  match project_repository.get_by_id db project_id with
  | None => (Raise (NotFoundException "Project not found"), db)
  | Some project =>
      if decide (project_created_by project ≠ user_id user)
      then (Raise (ForbiddenException
                     "You don't have permission to update this project"), db)
      else
        let update_data := ProjectUpdate_model_dump project_data in
        let '(db', updated_project) :=
          project_repository.update now db project update_data in
        (Return (ProjectResponse_model_validate updated_project), db')
  end.

Definition delete_project (db : Database) (project_id : Z) (user : User)
    : pyresult bool * Database :=
  match project_repository.get_by_id db project_id with
  | None => (Raise (NotFoundException "Project not found"), db)
  | Some project =>
      if decide (project_created_by project ≠ user_id user)
      then (Raise (ForbiddenException
                     "You don't have permission to delete this project"), db)
      else
        let '(db', deleted) := project_repository.delete db project_id in
        (Return deleted, db')
  end.
End project_service.

(** ** The issue service (services/issue.py) *)

Module issue_service.
Definition get_project_issues (db : Database) (project_id : Z) (user : User)
    (status : option IssueStatus) (priority : option IssuePriority)
    : pyresult (list IssueResponse) :=
  match project_repository.get_by_id db project_id with
  | None => Raise (NotFoundException "Project not found")
  | Some project =>
      if decide (project_created_by project ≠ user_id user)
      then Raise (ForbiddenException "You don't have access to this project")
      else
        let issues :=
          issue_repository.get_project_issues db project_id status priority in
        Return (IssueResponse_model_validate <$> issues)
  end.

(** [project.created_by] where the parent project of the issue was
    not found: the attribute access on [None] raises. *)
Definition no_project : exn :=
  AttributeError "'NoneType' object has no attribute 'created_by'".

Definition get_issue (db : Database) (issue_id : Z) (user : User)
    : pyresult IssueResponse :=
  match issue_repository.get_by_id db issue_id with
  | None => Raise (NotFoundException "Issue not found")
  | Some issue =>
      match project_repository.get_by_id db (issue_project_id issue) with
      | None => Raise no_project
      | Some project =>
          if decide (project_created_by project ≠ user_id user)
          then Raise (ForbiddenException "You don't have access to this issue")
          else Return (IssueResponse_model_validate issue)
      end
  end.

Definition create_issue (now : Z) (db : Database) (project_id : Z)
    (issue_data : IssueCreate) (user : User)
    : pyresult IssueResponse * Database :=
  match project_repository.get_by_id db project_id with
  | None => (Raise (NotFoundException "Project not found"), db)
  | Some project =>
      if decide (project_created_by project ≠ user_id user)
      then (Raise (ForbiddenException
              "You don't have permission to create issues in this project"), db)
      else
        let '(db', issue) :=
          issue_repository.create_issue now db project_id
            (new_title issue_data) (new_description issue_data)
            (new_status issue_data) (new_priority issue_data)
            (user_id user) in
        (Return (IssueResponse_model_validate issue), db')
  end.

Definition update_issue (now : Z) (db : Database) (issue_id : Z)
    (issue_data : IssueUpdate) (user : User)
    : pyresult IssueResponse * Database :=
  match issue_repository.get_by_id db issue_id with
  | None => (Raise (NotFoundException "Issue not found"), db)
  | Some issue =>
      match project_repository.get_by_id db (issue_project_id issue) with
      | None => (Raise no_project, db)
      | Some project =>
          if decide (project_created_by project ≠ user_id user)
          then (Raise (ForbiddenException
                         "You don't have permission to update this issue"), db)
          else
            let update_data := IssueUpdate_model_dump issue_data in
            let '(db', updated_issue) :=
              issue_repository.update now db issue update_data in
            (Return (IssueResponse_model_validate updated_issue), db')
      end
  end.

Definition delete_issue (db : Database) (issue_id : Z) (user : User)
    : pyresult bool * Database :=
  match issue_repository.get_by_id db issue_id with
  | None => (Raise (NotFoundException "Issue not found"), db)
  | Some issue =>
      match project_repository.get_by_id db (issue_project_id issue) with
      | None => (Raise no_project, db)
      | Some project =>
          if decide (project_created_by project ≠ user_id user)
          then (Raise (ForbiddenException
                         "You don't have permission to delete this issue"), db)
          else
            let '(db', deleted) := issue_repository.delete db issue_id in
            (Return deleted, db')
      end
  end.
End issue_service.

(** ** Configuration (config.py) *)

Record Settings : Type := mkSettings {
  SECRET_KEY : string;
  ALGORITHM : string;
  ACCESS_TOKEN_EXPIRE_MINUTES : Z
}.

(** The defaults of the class; the environment may override each. *)
Definition default_settings : Settings :=
  mkSettings "your-super-secret-key-change-in-production" "HS256" 30.

(** ** The libraries behind the handlers *)

(** What a JWT payload holds. *)
Inductive pyval : Type :=
  | PNone
  | PStr (s : string)
  | PInt (n : Z)
  | PDatetime (t : Z).

Global Instance pyval_eq_dec : EqDecision pyval.
Proof. solve_decision. Defined.

(** [passlib.context.CryptContext(schemes=["bcrypt"], deprecated="auto")]:
    its [verify] returns a boolean or raises. *)
Class CryptContext : Type := {
  pwd_context_verify : string → string → pyresult bool
}.

(** [jose.jwt]: [encode claims key algorithm] and
    [decode token key algorithms], which reads the clock to check the
    [exp] claim.  Both may raise. *)
Class Jose : Type := {
  jwt_encode : gmap string pyval → string → string → pyresult string;
  jwt_decode : Z → string → string → list string → pyresult (gmap string pyval)
}.

(** ** The password handler (auth/password_handler.py) *)

Module password_handler.
Section with_context.
Context {crypt : CryptContext}.

Definition verify (plain_password hashed_password : string) : pyresult bool :=
  pwd_context_verify plain_password hashed_password.
End with_context.
End password_handler.

(** ** The token handler (auth/token_handler.py) *)

(** [a or b] on strings and on integers: [b] when [a] is missing or
    falsy. *)
Definition or_str (a : option string) (b : string) : string :=
  match a with
  | Some s => if decide (s = "") then b else s
  | None => b
  end.

Definition or_int (a : option Z) (b : Z) : Z :=
  match a with
  | Some n => if decide (n = 0) then b else n
  | None => b
  end.

Record TokenHandler : Type := mkTokenHandler {
  _secret_key : string;
  _algorithm : string;
  _default_expire_minutes : Z
}.

Definition TokenHandler_init (settings : Settings)
    (secret_key algorithm : option string) (default_expire_minutes : option Z)
    : TokenHandler :=
  mkTokenHandler (or_str secret_key (SECRET_KEY settings))
                 (or_str algorithm (ALGORITHM settings))
                 (or_int default_expire_minutes
                         (ACCESS_TOKEN_EXPIRE_MINUTES settings)).

(** [timedelta(minutes=m)], in seconds. *)
Definition minutes (m : Z) : Z := 60 * m.

(** The range of [datetime], in seconds since the epoch:
    [datetime.min] is 0001-01-01 00:00:00 and [datetime.max] is the
    last second of 9999-12-31. *)
Definition datetime_min : Z := -62135596800.
Definition datetime_max : Z := 253402300799.

(** [OverflowError], the class; its message is left out. *)
Definition OverflowError : exn := OtherError "OverflowError".

(** [t + delta] on a [datetime] and a [timedelta]: the sum, or
    [OverflowError] when it leaves the years 1 to 9999.  (A number of
    minutes beyond the range of [timedelta] already raises
    [OverflowError] when the [timedelta] is built; such a duration takes
    the sum of a [datetime] out of the range as well.) *)
Definition datetime_add (t delta : Z) : pyresult Z :=
  if decide (datetime_min ≤ t + delta ≤ datetime_max)
  then Return (t + delta)
  else Raise OverflowError.

Module token_handler.
Section with_jose.
Context {jose : Jose} (self : TokenHandler).

(** [create_token]: [expires_delta] is in seconds; [if expires_delta:]
    fails for [None] and for a zero [timedelta].  The sum with
    [datetime.utcnow()] may raise, before the encoder is called. *)
Definition create_token (now : Z) (data : gmap string pyval)
    (expires_delta : option Z) : pyresult string :=
  let to_encode := data in
  expire ←
    match expires_delta with
    | Some delta =>
        if decide (delta ≠ 0) then datetime_add now delta
        else datetime_add now (minutes (_default_expire_minutes self))
    | None => datetime_add now (minutes (_default_expire_minutes self))
    end;
  let to_encode := <["exp" := PDatetime expire]> to_encode in
  jwt_encode to_encode (_secret_key self) (_algorithm self).

(** [decode_token]: [None] for a [JWTError]; any other exception is
    not caught. *)
Definition decode_token (now : Z) (token : string)
    : pyresult (option (gmap string pyval)) :=
  match jwt_decode now token (_secret_key self) [_algorithm self] with
  | Return payload => Return (Some payload)
  | Raise (JWTError _) => Return None
  | Raise e => Raise e
  end.
End with_jose.
End token_handler.

(** ** The authentication dependency (auth_deps.py) *)

Module auth.
Section with_jose.
Context {jose : Jose} (token_handler : TokenHandler).

(** [Auth.__call__] on the credentials of the [Authorization] header.
    [User.email == user_email] compares a string column with the value
    of the claim: a value that is not a string equals no email. *)
Definition call (now : Z) (db : Database) (jwt_token : string)
    : pyresult User :=
  payload ← token_handler.decode_token token_handler now jwt_token;
  match payload with
  | None => Raise (UnauthorizedException "Invalid authentication token")
  | Some payload =>
      match payload !! "sub" with
      | None | Some PNone =>
          Raise (UnauthorizedException "Invalid token payload")
      | Some email =>
          match head (filter (λ u, PStr (user_email u) = email) (users db)) with
          | None => Raise (UnauthorizedException "User not found")
          | Some user => Return user
          end
      end
  end.
End with_jose.
End auth.

(** ** The authentication service (services/auth.py) *)

Record Token : Type := mkToken {
  access_token : string;
  token_type : string                    (* default "bearer" *)
}.

Module auth_service.
Section with_libraries.
Context {crypt : CryptContext} {jose : Jose} (settings : Settings)
        (token_handler : TokenHandler).

Definition login (now : Z) (db : Database) (email password : string)
    : pyresult Token :=
  match user_repository.get_by_email db email with
  | None => Raise (UnauthorizedException "Invalid email or password")
  | Some user =>
      verified ← password_handler.verify password (user_hashed_password user);
      if negb verified
      then Raise (UnauthorizedException "Invalid email or password")
      else
        let access_token_expires :=
          minutes (ACCESS_TOKEN_EXPIRE_MINUTES settings) in
        access_token ←
          token_handler.create_token token_handler now
            (<["sub" := PStr (user_email user)]>
               (<["user_id" := PInt (user_id user)]> ∅))
            (Some access_token_expires);
        Return (mkToken access_token "bearer")
  end.
End with_libraries.
End auth_service.

(** ** Registration
    (schemas/user.py, auth/password_handler.py, services/auth.py) *)

Record UserCreate : Type := mkUserCreate {
  reg_email : string;
  reg_name : string;
  reg_password : string                  (* plain text *)
}.

(** The public profile: [UserResponse] has no field for the digest. *)
Record UserResponse : Type := mkUserResponse {
  res_email : string;
  res_name : string;
  res_id : Z;
  res_created_at : Z
}.

Definition UserResponse_model_validate (u : User) : UserResponse :=
  mkUserResponse (user_email u) (user_name u) (user_id u) (user_created_at u).

(** The [hash] method of the context of passlib.  Each call draws a
    fresh salt; the draw is the first argument. *)
Class CryptContextHash : Type := {
  pwd_context_hash : string → string → pyresult string
}.

Module password_hashing.
Section with_context.
Context {hasher : CryptContextHash}.

(** [PasswordHandler.hash] *)
Definition hash (salt plain_password : string) : pyresult string :=
  pwd_context_hash salt plain_password.
End with_context.
End password_hashing.

Module registration.
Section with_context.
Context {hasher : CryptContextHash}.

(** [AuthService.register] *)
Definition register (now : Z) (salt : string) (db : Database)
    (user_data : UserCreate) : pyresult UserResponse * Database :=
  match user_repository.get_by_email db (reg_email user_data) with
  | Some existing_user =>
      (Raise (ConflictException "Email already registered"), db)
  | None =>
      match password_hashing.hash salt (reg_password user_data) with
      | Raise e => (Raise e, db)
      | Return hashed_password =>
          let '(db', user) :=
            user_repository.create_user now db (reg_name user_data)
              (reg_email user_data) hashed_password in
          (Return (UserResponse_model_validate user), db')
      end
  end.
End with_context.
End registration.

(** ** A small database to evaluate the model on *)

Module sample.
Definition alice : User :=
  mkUser 1 "Alice" "alice@x.com" "$2b$12$alice" 1000 None.
Definition bob : User :=
  mkUser 2 "Bob" "bob@x.com" "$2b$12$bob" 1001 None.

Definition P1 : Project := mkProject 1 "P1" None 1 1100 None.
Definition P2 : Project := mkProject 2 "P2" (Some "second") 2 1200 None.

Definition bug : Issue :=
  mkIssue 1 1 "Bug" (Some "it crashes") OPEN MEDIUM 1 1300 1300.
Definition task : Issue :=
  mkIssue 2 1 "Task" None IN_PROGRESS HIGH 1 1400 1400.
Definition chore : Issue :=
  mkIssue 3 1 "Chore" None OPEN LOW 1 1350 1350.
Definition other : Issue :=
  mkIssue 4 2 "Other" None OPEN HIGH 2 1500 1500.

Definition db : Database :=
  mkDatabase [alice; bob] [P1; P2] [bug; task; chore; other] 3 3 5.

(** [PATCH {"description": null}] *)
Definition clear_description : IssueUpdate :=
  mkIssueUpdate Unset (Sent None) Unset Unset.

Definition new_issue : IssueCreate := mkIssueCreate "Bug" None OPEN MEDIUM.
End sample.

(** ** Libraries to evaluate the model with *)

(** The context of passlib, as its documentation describes [verify]: the
    hash is first identified among the schemes of the context, here
    bcrypt alone, by its identifier prefix; a hash that no scheme
    identifies raises [UnknownHashError] ("hash could not be
    identified").  The digest computation itself, [checkpw], stays a
    parameter.  This is a description of the library, which is not
    part of the application. *)
Definition bcrypt_ident_values : list string :=
  ["$2$"; "$2a$"; "$2x$"; "$2y$"; "$2b$"].

Definition bcrypt_identify (hash : string) : bool :=
  existsb (λ ident, String.prefix ident hash) bcrypt_ident_values.

Definition UnknownHashError : exn :=
  OtherError "UnknownHashError: hash could not be identified".

Definition passlib_context (checkpw : string → string → pyresult bool)
    : CryptContext :=
  {| pwd_context_verify secret hash :=
       if bcrypt_identify hash then checkpw secret hash
       else Raise UnknownHashError |}.

Module stand_in.
(** A stand-in for bcrypt: the digest of a password is the password
    behind the identifier and cost of bcrypt. *)
Definition checkpw (secret hash : string) : pyresult bool :=
  Return (bool_decide (hash = "$2b$12$" ++ secret)).

Definition crypt : CryptContext := passlib_context checkpw.

(** A stand-in for jose that knows four tokens. *)
Definition jose : Jose :=
  {| jwt_encode claims key algorithm := Return "token-of-alice";
     jwt_decode now token key algorithms :=
       if decide (token = "token-of-alice") then
         Return (<["sub" := PStr "alice@x.com"]>
                   (<["user_id" := PInt 1]> (<["exp" := PInt 5000]> ∅)))
       else if decide (token = "token-of-carol") then
         Return (<["sub" := PStr "carol@x.com"]>
                   (<["user_id" := PInt 3]> (<["exp" := PInt 5000]> ∅)))
       else if decide (token = "token-without-subject") then
         Return (<["user_id" := PInt 1]> (<["exp" := PInt 5000]> ∅))
       else Raise (JWTError "Not enough segments") |}.

Definition handler : TokenHandler :=
  TokenHandler_init default_settings None None None.
End stand_in.

(** ** Vocabulary of the statements *)

(** A service call that may write was refused as Forbidden and left the
    database as it was. *)
Definition denied {A} (db : Database) (out : pyresult A * Database) : Prop :=
  is_Forbidden out.1 ∧ out.2 = db.

(** [PATCH {"status": "Closed"}]: only [status] is sent. *)
Definition closing : IssueUpdate :=
  mkIssueUpdate Unset Unset (Sent (Some CLOSED)) Unset.

(** The value that a column holds after a partial update, when the
    update applies the fields that were sent with a value that is not
    [null]: that value, and the previous one otherwise. *)
Definition stored {A B} (inj : A → B) (f : field A) (old : B) : B :=
  match f with
  | Sent (Some v) => inj v
  | Sent None | Unset => old
  end.

(** The columns of an issue after such an update, before the database
    stamps [updated_at]. *)
Definition Issue_patched (u : IssueUpdate) (i : Issue) : Issue :=
  mkIssue (issue_id_ i) (issue_project_id i)
          (stored id (upd_title u) (issue_title i))
          (stored Some (upd_description u) (issue_description i))
          (stored id (upd_status u) (issue_status i))
          (stored id (upd_priority u) (issue_priority i))
          (issue_created_by i) (issue_created_at i) (issue_updated_at i).

Definition Project_patched (u : ProjectUpdate) (p : Project) : Project :=
  mkProject (project_id_ p)
            (stored id (pupd_name u) (project_name p))
            (stored Some (pupd_description u) (project_description p))
            (project_created_by p) (project_created_at p)
            (project_updated_at p).

(** The partial update in the words of the specification: [after] is
    [before] with exactly the fields present in the payload applied.  A
    field that was not sent keeps its value; a field that was sent takes
    the value sent, and a nullable column ([description]) sent as [null]
    becomes [null]. *)
Definition applies_present_fields (u : IssueUpdate) (before after : Issue)
    : Prop :=
  (∀ v, upd_title u = Sent (Some v) → issue_title after = v) ∧
  (upd_title u = Unset → issue_title after = issue_title before) ∧
  (∀ v, upd_description u = Sent v → issue_description after = v) ∧
  (upd_description u = Unset →
     issue_description after = issue_description before) ∧
  (∀ v, upd_status u = Sent (Some v) → issue_status after = v) ∧
  (upd_status u = Unset → issue_status after = issue_status before) ∧
  (∀ v, upd_priority u = Sent (Some v) → issue_priority after = v) ∧
  (upd_priority u = Unset → issue_priority after = issue_priority before).

(** An issue is selected by a listing of the project [project_id]: it
    belongs to the project and passes each filter that was given. *)
Definition matches (project_id : Z) (status : option IssueStatus)
    (priority : option IssuePriority) (i : Issue) : Prop :=
  issue_project_id i = project_id ∧
  match status with Some s => issue_status i = s | None => True end ∧
  match priority with Some q => issue_priority i = q | None => True end.

Global Instance matches_dec project_id status priority i :
  Decision (matches project_id status priority i).
Proof. unfold matches. destruct status, priority; apply _. Defined.

(** ** Integrity of the database *)

(** What the column declarations of the models make the database keep:
    the primary keys of a table are distinct ([primary_key=True]) and
    below the next value of its sequence, the emails of the users are
    distinct ([unique=True]), and every foreign key points to a row
    ([ForeignKey("users.id")], [ForeignKey("projects.id")]). *)
Definition well_formed (db : Database) : Prop :=
  NoDup (user_id <$> users db) ∧
  NoDup (user_email <$> users db) ∧
  NoDup (project_id_ <$> projects db) ∧
  NoDup (issue_id_ <$> issues db) ∧
  Forall (λ u, user_id u < users_seq db) (users db) ∧
  Forall (λ p, project_id_ p < projects_seq db) (projects db) ∧
  Forall (λ i, issue_id_ i < issues_seq db) (issues db) ∧
  Forall (λ p, is_Some (get_by_id (users db) (project_created_by p)))
         (projects db) ∧
  Forall (λ i, is_Some (get_by_id (projects db) (issue_project_id i)))
         (issues db) ∧
  Forall (λ i, is_Some (get_by_id (users db) (issue_created_by i)))
         (issues db).

Global Instance well_formed_dec (db : Database) : Decision (well_formed db).
Proof. unfold well_formed. apply _. Defined.

(** A field of a partial update that carries no value: it was not sent,
    or it was sent as [null]. *)
Definition no_value {A} (f : field A) : Prop :=
  f = Unset ∨ f = Sent None.

Module toy.
(** A stand-in for the hashing of bcrypt, the counterpart of
    [stand_in.checkpw]. *)
Definition hasher : CryptContextHash :=
  {| pwd_context_hash salt secret := Return ("$2b$12$" ++ secret) |}.

(** A stand-in for jose whose token is the subject behind a marker. *)
Definition jose : Jose :=
  {| jwt_encode claims key algorithm :=
       match claims !! "sub" with
       | Some (PStr subject) => Return ("jwt." ++ subject)
       | _ => Raise (JWTError "no subject")
       end;
     jwt_decode now token key algorithms :=
       if String.prefix "jwt." token
       then Return {[ "sub" := PStr (String.substring 4 (String.length token - 4)
                                       token) ]}
       else Raise (JWTError "Not enough segments") |}.

Definition carol : UserCreate := mkUserCreate "carol@x.com" "Carol" "pw123456".
End toy.

Module sample_orphan.
(** A database in which the issue 9 names the project 8, which no longer
    exists: what a request sees when the project was deleted between its
    two lookups, or when the foreign key is not enforced. *)
Definition stray : Issue := mkIssue 9 8 "Stray" None OPEN LOW 1 1600 1600.

Definition db : Database :=
  mkDatabase [sample.alice; sample.bob] [sample.P1; sample.P2]
             [sample.bug; stray] 3 3 10.
End sample_orphan.

(** * Properties *)

Example get_project_owner :
  project_service.get_project sample.db 1 sample.alice = Return sample.P1.
Proof. reflexivity. Qed.

Example get_project_stranger :
  project_service.get_project sample.db 1 sample.bob =
    Raise (ForbiddenException "You don't have access to this project").
Proof. reflexivity. Qed.

Example listing_newest_first :
  issue_service.get_project_issues sample.db 1 sample.alice None None =
    Return [sample.task; sample.chore; sample.bug].
Proof. vm_compute. reflexivity. Qed.

Example listing_filtered :
  issue_service.get_project_issues sample.db 1 sample.alice (Some OPEN) None =
    Return [sample.chore; sample.bug].
Proof. vm_compute. reflexivity. Qed.

Example close_bug :
  fst (issue_service.update_issue 2000 sample.db 1 closing sample.alice) =
    Return (mkIssue 1 1 "Bug" (Some "it crashes") CLOSED MEDIUM 1 1300 2000).
Proof. vm_compute. reflexivity. Qed.

Example delete_P1_cascades :
  issues (snd (project_service.delete_project sample.db 1 sample.alice)) =
    [sample.other].
Proof. vm_compute. reflexivity. Qed.

(** ** Lookups in a table *)

Section table_lemmas.
Context {M : Type} `{Model M}.

Lemma get_by_id_Some (table : list M) (id : Z) (row : M) :
  get_by_id table id = Some row → row ∈ table ∧ pk row = id.
Proof.
  unfold get_by_id. intros Hhead.
  apply head_Some_elem_of in Hhead.
  by apply list_elem_of_filter in Hhead as [? ?].
Qed.

Lemma get_by_id_None (table : list M) (id : Z) :
  get_by_id table id = None ↔ ∀ row, row ∈ table → pk row ≠ id.
Proof.
  unfold get_by_id. rewrite head_None. split.
  - intros Hnil row Hin Hpk.
    assert (row ∈ filter (λ row, pk row = id) table) as Hf
      by (apply list_elem_of_filter; done).
    rewrite Hnil in Hf. by apply not_elem_of_nil in Hf.
  - intros Hall. induction table as [|r table IH]; [done|].
    rewrite filter_cons. case_decide as Hr.
    + exfalso. apply (Hall r); [left | done].
    + apply IH. intros row Hin. apply Hall. by right.
Qed.

(** After the UPDATE the row is found under the same key. *)
Lemma get_by_id_write_row (table : list M) (id : Z) (row obj : M) :
  get_by_id table id = Some row → pk obj = id →
  get_by_id (write_row table obj) id = Some obj.
Proof.
  unfold get_by_id, write_row. intros Hrow <-.
  induction table as [|r table IH]; [done|].
  rewrite filter_cons in Hrow. rewrite fmap_cons, filter_cons.
  destruct (decide (pk r = pk obj)) as [Hr|Hr].
  - by rewrite decide_True.
  - rewrite decide_False by done. by apply IH.
Qed.
End table_lemmas.

(** ** C1, C2: the ownership chain *)

(** C1.  Ownership invariant: for a project P of the database and a user
    U who is not its owner, every service that reaches P (reading,
    updating or deleting P, listing its issues, creating an issue in
    it, and reading, updating or deleting an issue that belongs to P)
    raises [ForbiddenException] for U, whatever the arguments of the
    operation; the writing services leave the database unchanged. *)
Theorem ownership_invariant (db : Database) (P : Project) (U : User) :
  project_repository.get_by_id db (project_id_ P) = Some P →
  project_created_by P ≠ user_id U →
  is_Forbidden (project_service.get_project db (project_id_ P) U) ∧
  (∀ now data,
     denied db (project_service.update_project now db (project_id_ P) data U)) ∧
  denied db (project_service.delete_project db (project_id_ P) U) ∧
  (∀ status priority,
     is_Forbidden
       (issue_service.get_project_issues db (project_id_ P) U status priority)) ∧
  (∀ now data,
     denied db (issue_service.create_issue now db (project_id_ P) data U)) ∧
  (∀ issue_id issue,
     issue_repository.get_by_id db issue_id = Some issue →
     issue_project_id issue = project_id_ P →
     is_Forbidden (issue_service.get_issue db issue_id U) ∧
     (∀ now data,
        denied db (issue_service.update_issue now db issue_id data U)) ∧
     denied db (issue_service.delete_issue db issue_id U)).
Proof.
  intros HP Hown.
  unfold denied, is_Forbidden,
    project_service.get_project, project_service.update_project,
    project_service.delete_project, issue_service.get_project_issues,
    issue_service.create_issue.
  rewrite HP.
  repeat split; intros; try by (case_decide; [simpl; eauto | done]).
  all: unfold issue_service.get_issue, issue_service.update_issue,
         issue_service.delete_issue;
       match goal with
       | Hi : issue_repository.get_by_id _ _ = Some ?i,
         Hp : issue_project_id ?i = _ |- _ => rewrite Hi, Hp, HP
       end;
       by (case_decide; [simpl; eauto | done]).
Qed.

Lemma ownership_invariant_witness :
  is_Forbidden (project_service.get_project sample.db 1 sample.bob) ∧
  denied sample.db (project_service.delete_project sample.db 1 sample.bob) ∧
  is_Forbidden (issue_service.get_issue sample.db 3 sample.bob) ∧
  denied sample.db
    (issue_service.update_issue 2000 sample.db 3 closing sample.bob).
Proof.
  assert (project_repository.get_by_id sample.db (project_id_ sample.P1)
          = Some sample.P1) as HP by reflexivity.
  assert (project_created_by sample.P1 ≠ user_id sample.bob) as Hown
    by (vm_compute; discriminate).
  destruct (ownership_invariant sample.db sample.P1 sample.bob HP Hown)
    as (Hget & _ & Hdel & _ & _ & Hissue).
  destruct (Hissue 3 sample.chore eq_refl eq_refl) as (Hi & Hupd & _).
  exact (conj Hget (conj Hdel (conj Hi (Hupd 2000 closing)))).
Defined.

(** C2.  Project authorization, as each service that takes a project id
    performs it, for every database, project id and user.  When no
    project has the id, the service raises [NotFoundException], whoever
    the user is and whatever the other projects are: the lookup comes
    first and the owner is not consulted.  When the project exists and
    the user is not its owner, the service raises [ForbiddenException].
    Both outcomes are exceptions with a fixed detail: they carry nothing
    of the project, and the database is left as it was. *)
Theorem project_authorization
    (db : Database) (project_id : Z) (user : User) :
  (project_repository.get_by_id db project_id = None →
   project_service.get_project db project_id user =
     Raise (NotFoundException "Project not found") ∧
   (∀ now data, project_service.update_project now db project_id data user =
     (Raise (NotFoundException "Project not found"), db)) ∧
   project_service.delete_project db project_id user =
     (Raise (NotFoundException "Project not found"), db) ∧
   (∀ status priority,
      issue_service.get_project_issues db project_id user status priority =
        Raise (NotFoundException "Project not found")) ∧
   (∀ now data, issue_service.create_issue now db project_id data user =
     (Raise (NotFoundException "Project not found"), db)))
  ∧
  (∀ P,
   project_repository.get_by_id db project_id = Some P →
   project_created_by P ≠ user_id user →
   project_service.get_project db project_id user =
     Raise (ForbiddenException "You don't have access to this project") ∧
   (∀ now data, project_service.update_project now db project_id data user =
     (Raise (ForbiddenException
               "You don't have permission to update this project"), db)) ∧
   project_service.delete_project db project_id user =
     (Raise (ForbiddenException
               "You don't have permission to delete this project"), db) ∧
   (∀ status priority,
      issue_service.get_project_issues db project_id user status priority =
        Raise (ForbiddenException "You don't have access to this project")) ∧
   (∀ now data, issue_service.create_issue now db project_id data user =
     (Raise (ForbiddenException
               "You don't have permission to create issues in this project"),
      db))).
Proof.
  unfold project_service.get_project, project_service.update_project,
    project_service.delete_project, issue_service.get_project_issues,
    issue_service.create_issue.
  split.
  - intros Hmissing. by rewrite Hmissing.
  - intros P Hforeign Hown. rewrite Hforeign.
    repeat split; intros; by case_decide.
Qed.

Lemma project_authorization_witness :
  project_service.get_project sample.db 7 sample.bob =
    Raise (NotFoundException "Project not found") ∧
  project_service.delete_project
    (mkDatabase [sample.alice] [] [] 2 2 1) 1 sample.alice =
    (Raise (NotFoundException "Project not found"),
     mkDatabase [sample.alice] [] [] 2 2 1) ∧
  project_service.get_project sample.db 1 sample.bob =
    Raise (ForbiddenException "You don't have access to this project").
Proof.
  destruct (project_authorization sample.db 7 sample.bob) as (Hmissing & _).
  destruct (Hmissing eq_refl) as (Hnf & _).
  destruct (project_authorization (mkDatabase [sample.alice] [] [] 2 2 1) 1
              sample.alice) as (Hempty & _).
  destruct (Hempty eq_refl) as (_ & _ & Hdel & _).
  destruct (project_authorization sample.db 1 sample.bob) as (_ & Hforeign).
  assert (project_created_by sample.P1 ≠ user_id sample.bob) as Hown
    by (vm_compute; discriminate).
  destruct (Hforeign sample.P1 eq_refl Hown) as (Hfb & _).
  exact (conj Hnf (conj Hdel Hfb)).
Defined.

(** ** C3, C8: partial updates *)

(** The loop of [update] on the dictionary of an [IssueUpdate]. *)
Lemma assign_items_IssueUpdate (i : Issue) (u : IssueUpdate) :
  assign_items i (IssueUpdate_model_dump u) = Issue_patched u i.
Proof.
  destruct i, u as [[|[?|]] [|[?|]] [|[?|]] [|[?|]]]; reflexivity.
Qed.

Lemma assign_items_ProjectUpdate (p : Project) (u : ProjectUpdate) :
  assign_items p (ProjectUpdate_model_dump u) = Project_patched u p.
Proof.
  destruct p, u as [[|[?|]] [|[?|]]]; reflexivity.
Qed.

(** What [update_issue] does for the owner of the project. *)
Lemma update_issue_owner (now : Z) (db : Database) (issue_id : Z)
    (u : IssueUpdate) (user : User) (i : Issue) (p : Project) :
  issue_repository.get_by_id db issue_id = Some i →
  project_repository.get_by_id db (issue_project_id i) = Some p →
  project_created_by p = user_id user →
  issue_service.update_issue now db issue_id u user =
    let after := flush now i (Issue_patched u i) in
    (Return after,
     mkDatabase (users db) (projects db) (write_row (issues db) after)
                (users_seq db) (projects_seq db) (issues_seq db)).
Proof.
  intros Hi Hp Hown. unfold issue_service.update_issue.
  rewrite Hi, Hp. rewrite decide_False by (intros Hne; by apply Hne).
  unfold issue_repository.update, update.
  by rewrite assign_items_IssueUpdate.
Qed.

Lemma update_project_owner (now : Z) (db : Database) (project_id : Z)
    (u : ProjectUpdate) (user : User) (p : Project) :
  project_repository.get_by_id db project_id = Some p →
  project_created_by p = user_id user →
  project_service.update_project now db project_id u user =
    let after := flush now p (Project_patched u p) in
    (Return after,
     mkDatabase (users db) (write_row (projects db) after) (issues db)
                (users_seq db) (projects_seq db) (issues_seq db)).
Proof.
  intros Hp Hown. unfold project_service.update_project.
  rewrite Hp. rewrite decide_False by (intros Hne; by apply Hne).
  unfold project_repository.update, update.
  by rewrite assign_items_ProjectUpdate.
Qed.

(** [flush] touches [updated_at] only. *)
Lemma flush_Issue_columns (now : Z) (i assigned : Issue) :
  let after := flush now i assigned in
  issue_id_ assigned = issue_id_ i →
  issue_id_ after = issue_id_ assigned ∧
  issue_project_id after = issue_project_id assigned ∧
  issue_title after = issue_title assigned ∧
  issue_description after = issue_description assigned ∧
  issue_status after = issue_status assigned ∧
  issue_priority after = issue_priority assigned ∧
  issue_created_by after = issue_created_by assigned ∧
  issue_created_at after = issue_created_at assigned.
Proof.
  unfold flush. simpl. intros Hid. case_decide as Heq; [|done].
  by rewrite Heq.
Qed.

Lemma flush_Project_columns (now : Z) (p assigned : Project) :
  let after := flush now p assigned in
  project_id_ after = project_id_ assigned ∧
  project_name after = project_name assigned ∧
  project_description after = project_description assigned ∧
  project_created_by after = project_created_by assigned ∧
  project_created_at after = project_created_at assigned.
Proof.
  unfold flush. simpl. case_decide as Heq; [|done]. by rewrite Heq.
Qed.

(** C3, as amended.  For the owner, a partial update of any existing
    issue and of any existing project, with or without issues, assigns
    exactly the fields that the payload holds with a value that is not
    null.  A field that was not sent is left untouched, and so is a
    field sent as null: the two are not distinguished.  The columns
    outside the payload (id, project_id, created_by, created_at) keep
    their values; [updated_at] is stamped by the database when the
    update changed a column, and kept otherwise.  The updated row is
    what the service returns and what the table holds afterwards. *)
Theorem partial_update_applies_non_null_fields
    (now : Z) (db : Database) (user : User) :
  (∀ (issue_id : Z) (i : Issue) (p : Project) (u : IssueUpdate),
     issue_repository.get_by_id db issue_id = Some i →
     project_repository.get_by_id db (issue_project_id i) = Some p →
     project_created_by p = user_id user →
     ∃ after db',
       issue_service.update_issue now db issue_id u user = (Return after, db') ∧
       issue_repository.get_by_id db' issue_id = Some after ∧
       issue_title after = stored id (upd_title u) (issue_title i) ∧
       issue_description after =
         stored Some (upd_description u) (issue_description i) ∧
       issue_status after = stored id (upd_status u) (issue_status i) ∧
       issue_priority after = stored id (upd_priority u) (issue_priority i) ∧
       issue_id_ after = issue_id_ i ∧
       issue_project_id after = issue_project_id i ∧
       issue_created_by after = issue_created_by i ∧
       issue_created_at after = issue_created_at i ∧
       issue_updated_at after =
         (if decide (Issue_patched u i = i) then issue_updated_at i else now))
  ∧
  (∀ (project_id : Z) (p : Project) (pu : ProjectUpdate),
     project_repository.get_by_id db project_id = Some p →
     project_created_by p = user_id user →
     ∃ after db',
       project_service.update_project now db project_id pu user =
         (Return after, db') ∧
       project_repository.get_by_id db' project_id = Some after ∧
       project_name after = stored id (pupd_name pu) (project_name p) ∧
       project_description after =
         stored Some (pupd_description pu) (project_description p) ∧
       project_id_ after = project_id_ p ∧
       project_created_by after = project_created_by p ∧
       project_created_at after = project_created_at p ∧
       project_updated_at after =
         (if decide (Project_patched pu p = p) then project_updated_at p
          else Some now)).
Proof.
  split.
  - intros issue_id i p u Hi Hp Hown.
    eexists _, _. split; [by apply (update_issue_owner now db issue_id u user i p)|].
    simpl.
    destruct (flush_Issue_columns now i (Issue_patched u i) eq_refl)
      as (Hid & Hpid & Ht & Hd & Hs & Hpr & Hcb & Hca).
    split.
    { apply (get_by_id_write_row (issues db) issue_id i); [done|].
      change (issue_id_ (flush now i (Issue_patched u i)) = issue_id).
      rewrite Hid. simpl. by apply (get_by_id_Some (issues db)) in Hi as [_ ?]. }
    rewrite Ht, Hd, Hs, Hpr, Hid, Hpid, Hcb, Hca. simpl.
    repeat split; try done.
    unfold flush. by repeat case_decide.
  - intros project_id p pu Hp Hown.
    eexists _, _.
    split; [by apply (update_project_owner now db project_id pu user p)|].
    simpl.
    destruct (flush_Project_columns now p (Project_patched pu p))
      as (Hid & Hn & Hd & Hcb & Hca).
    split.
    { apply (get_by_id_write_row (projects db) project_id p); [done|].
      change (project_id_ (flush now p (Project_patched pu p)) = project_id).
      rewrite Hid. simpl. by apply (get_by_id_Some (projects db)) in Hp as [_ ?]. }
    rewrite Hn, Hd, Hid, Hcb, Hca. simpl.
    repeat split; try done.
    unfold flush. by repeat case_decide.
Qed.

Lemma partial_update_applies_non_null_fields_witness :
  (∃ after db',
     issue_service.update_issue 2000 sample.db 1 sample.clear_description
       sample.alice = (Return after, db') ∧
     issue_description after = Some "it crashes" ∧
     issue_updated_at after = 1300) ∧
  (∃ after db',
     project_service.update_project 2000
       (mkDatabase [sample.alice] [sample.P1] [] 2 2 1) 1
       (mkProjectUpdate (Sent (Some "P1 renamed")) (Sent None)) sample.alice
       = (Return after, db') ∧
     project_name after = "P1 renamed" ∧
     project_description after = None ∧
     project_updated_at after = Some 2000).
Proof.
  split.
  - destruct (partial_update_applies_non_null_fields 2000 sample.db
                sample.alice) as (Hissue & _).
    destruct (Hissue 1 sample.bug sample.P1 sample.clear_description
                eq_refl eq_refl eq_refl)
      as (after & db' & Hcall & _ & _ & Hdescr & _ & _ & _ & _ & _ & _ & Hupd).
    exists after, db'. split; [exact Hcall|]. split; [exact Hdescr|exact Hupd].
  - destruct (partial_update_applies_non_null_fields 2000
                (mkDatabase [sample.alice] [sample.P1] [] 2 2 1)
                sample.alice) as (_ & Hproject).
    destruct (Hproject 1 sample.P1
                (mkProjectUpdate (Sent (Some "P1 renamed")) (Sent None))
                eq_refl eq_refl)
      as (after & db' & Hcall & _ & Hname & Hdescr & _ & _ & _ & Hupd).
    exists after, db'. split; [exact Hcall|].
    split; [exact Hname|]. split; [exact Hdescr|exact Hupd].
Defined.

(** C3, as stated, fails: the request [PATCH {"description": null}]
    holds the field [description] explicitly, with the value null, and
    the update does not apply it: the description of the issue stays
    what it was, exactly as for a request that does not hold the field. *)
Lemma explicit_null_not_applied :
  let sent_null :=
    issue_service.update_issue 2000 sample.db 1 sample.clear_description
      sample.alice in
  let not_sent :=
    issue_service.update_issue 2000 sample.db 1
      (mkIssueUpdate Unset Unset Unset Unset) sample.alice in
  sent_null = not_sent ∧
  ∃ after, sent_null.1 = Return after ∧
    issue_description after = Some "it crashes" ∧
    ¬ applies_present_fields sample.clear_description sample.bug after.
Proof.
  split; [by vm_compute|].
  exists sample.bug. split; [by vm_compute|]. split; [done|].
  intros (_ & _ & Hdescr & _).
  specialize (Hdescr None eq_refl). discriminate Hdescr.
Qed.

(** Writing the same row twice is writing it once. *)
Lemma write_row_idemp {M : Type} `{Model M} (table : list M) (obj : M) :
  write_row (write_row table obj) obj = write_row table obj.
Proof.
  unfold write_row. rewrite <- list_fmap_compose.
  apply list_fmap_ext. intros _ row _. simpl.
  destruct (decide (pk row = pk obj)) as [Hrow|Hrow].
  - by rewrite decide_True.
  - by rewrite decide_False.
Qed.

(** A closed issue is a fixed point of the closing update. *)
Lemma Issue_patched_closing_closed (i : Issue) :
  issue_status i = CLOSED → Issue_patched closing i = i.
Proof. destruct i. simpl. by intros ->. Qed.

(** C8.  Closing an issue twice.  For the owner, the second
    [PATCH {"status": "Closed"}] returns the same issue as the first and
    leaves the database in the state that the first produced, whatever
    the times of the two requests.  The issue that they return is closed
    and has the title, description, priority, creator, project, id and
    [created_at] of the issue before the first request. *)
Theorem closing_twice_is_closing_once
    (now1 now2 : Z) (db : Database) (issue_id : Z) (user : User)
    (i : Issue) (p : Project) :
  issue_repository.get_by_id db issue_id = Some i →
  project_repository.get_by_id db (issue_project_id i) = Some p →
  project_created_by p = user_id user →
  let once := issue_service.update_issue now1 db issue_id closing user in
  let twice := issue_service.update_issue now2 once.2 issue_id closing user in
  twice = once ∧
  ∃ after,
    once.1 = Return after ∧
    issue_status after = CLOSED ∧
    issue_priority after = issue_priority i ∧
    issue_created_at after = issue_created_at i ∧
    issue_title after = issue_title i ∧
    issue_description after = issue_description i ∧
    issue_id_ after = issue_id_ i ∧
    issue_project_id after = issue_project_id i ∧
    issue_created_by after = issue_created_by i.
Proof.
  intros Hi Hp Hown once twice. subst twice once.
  rewrite (update_issue_owner now1 db issue_id closing user i p Hi Hp Hown).
  cbv zeta. cbn [fst snd].
  set (after := flush now1 i (Issue_patched closing i)).
  destruct (flush_Issue_columns now1 i (Issue_patched closing i) eq_refl)
    as (Hid & Hpid & Ht & Hd & Hs & Hpr & Hcb & Hca).
  fold after in Hid, Hpid, Ht, Hd, Hs, Hpr, Hcb, Hca. simpl in *.
  split; [|by exists after].
  assert (issue_id_ after = issue_id) as Hkey.
  { rewrite Hid. by apply (get_by_id_Some (issues db)) in Hi as [_ ?]. }
  rewrite (update_issue_owner now2 _ issue_id closing user after p).
  - cbv zeta. rewrite (Issue_patched_closing_closed after Hs).
    unfold flush at 1 2. rewrite !decide_True by done.
    cbn [users projects issues users_seq projects_seq issues_seq].
    by rewrite write_row_idemp.
  - by apply (get_by_id_write_row (issues db) issue_id i).
  - by rewrite Hpid.
  - done.
Qed.

Lemma closing_twice_is_closing_once_witness :
  issue_service.update_issue 3000
    (issue_service.update_issue 2000 sample.db 1 closing sample.alice).2
    1 closing sample.alice
  = issue_service.update_issue 2000 sample.db 1 closing sample.alice.
Proof.
  exact (proj1 (closing_twice_is_closing_once 2000 3000 sample.db 1
                  sample.alice sample.bug sample.P1 eq_refl eq_refl eq_refl)).
Defined.

(** ** C10: the listing of the issues of a project *)

Global Instance created_at_desc_total : Total created_at_desc.
Proof. intros a b. unfold created_at_desc. lia. Qed.

Global Instance created_at_desc_trans : Transitive created_at_desc.
Proof. intros a b c. unfold created_at_desc. lia. Qed.

(** The query before [order_by] selects the matching issues, in the
    order of the table. *)
Lemma get_project_issues_selects (db : Database) (project_id : Z)
    (status : option IssueStatus) (priority : option IssuePriority) :
  issue_repository.get_project_issues db project_id status priority =
    merge_sort created_at_desc
      (filter (matches project_id status priority) (issues db)).
Proof.
  unfold issue_repository.get_project_issues. f_equal.
  destruct status as [s|], priority as [q|];
    rewrite ?list_filter_filter; apply list_filter_iff;
    intros i; unfold matches; tauto.
Qed.

(** C10.  For every project and every combination of the optional
    filters on status and priority, the listing of the repository holds
    exactly the issues of the table that match (each as often as the
    table holds it), and every issue in it was created no earlier than
    all the issues after it: newest first.  The service returns this
    listing to the owner of the project. *)
Theorem listing_sorted_newest_first (db : Database) (project_id : Z)
    (status : option IssueStatus) (priority : option IssuePriority) :
  let listing :=
    issue_repository.get_project_issues db project_id status priority in
  StronglySorted (λ a b, issue_created_at b ≤ issue_created_at a) listing ∧
  listing ≡ₚ filter (matches project_id status priority) (issues db) ∧
  ∀ user p,
    project_repository.get_by_id db project_id = Some p →
    project_created_by p = user_id user →
    issue_service.get_project_issues db project_id user status priority =
      Return listing.
Proof.
  intros listing. subst listing. rewrite get_project_issues_selects.
  split; [|split].
  - apply (StronglySorted_merge_sort created_at_desc).
  - apply merge_sort_Permutation.
  - intros user p Hp Hown. unfold issue_service.get_project_issues.
    rewrite Hp. rewrite decide_False by (intros Hne; by apply Hne).
    rewrite get_project_issues_selects.
    unfold IssueResponse_model_validate. f_equal.
    apply (list_fmap_id (A := Issue)).
Qed.

Lemma listing_sorted_newest_first_witness :
  issue_service.get_project_issues sample.db 1 sample.alice (Some OPEN) None =
    Return [sample.chore; sample.bug].
Proof.
  destruct (listing_sorted_newest_first sample.db 1 (Some OPEN) None)
    as (_ & _ & Hservice).
  exact (Hservice sample.alice sample.P1 eq_refl eq_refl).
Defined.

(** ** C5: login *)

Example login_alice :
  auth_service.login (crypt := stand_in.crypt) (jose := stand_in.jose)
    default_settings stand_in.handler 2000 sample.db "alice@x.com" "alice"
  = Return (mkToken "token-of-alice" "bearer").
Proof. vm_compute. reflexivity. Qed.

Example login_wrong_password :
  auth_service.login (crypt := stand_in.crypt) (jose := stand_in.jose)
    default_settings stand_in.handler 2000 sample.db "alice@x.com" "guess"
  = Raise (UnauthorizedException "Invalid email or password").
Proof. vm_compute. reflexivity. Qed.

(** C5.  Login.  An attempt for an email that no user has and an
    attempt for an existing user whose password does not verify have the
    same outcome: both raise [UnauthorizedException] with the detail
    "Invalid email or password".  An attempt whose password verifies
    returns the token issued for the user, of type "bearer". *)
Theorem login_failures_indistinguishable
    {crypt : CryptContext} {jose : Jose}
    (settings : Settings) (token_handler : TokenHandler)
    (now1 now2 now3 : Z) (db1 db2 db3 : Database)
    (email1 email2 email3 password1 password2 password3 : string)
    (user2 user3 : User) (token : string) :
  user_repository.get_by_email db1 email1 = None →
  user_repository.get_by_email db2 email2 = Some user2 →
  password_handler.verify password2 (user_hashed_password user2) =
    Return false →
  user_repository.get_by_email db3 email3 = Some user3 →
  password_handler.verify password3 (user_hashed_password user3) =
    Return true →
  token_handler.create_token token_handler now3
    (<["sub" := PStr (user_email user3)]>
       (<["user_id" := PInt (user_id user3)]> ∅))
    (Some (minutes (ACCESS_TOKEN_EXPIRE_MINUTES settings))) = Return token →
  auth_service.login settings token_handler now1 db1 email1 password1 =
    auth_service.login settings token_handler now2 db2 email2 password2 ∧
  auth_service.login settings token_handler now1 db1 email1 password1 =
    Raise (UnauthorizedException "Invalid email or password") ∧
  auth_service.login settings token_handler now3 db3 email3 password3 =
    Return (mkToken token "bearer").
Proof.
  intros Habsent Huser2 Hwrong Huser3 Hright Htoken.
  unfold auth_service.login.
  rewrite Habsent, Huser2, Huser3, Hwrong, Hright. simpl.
  by rewrite Htoken.
Qed.

Lemma login_failures_indistinguishable_witness :
  auth_service.login (crypt := stand_in.crypt) (jose := stand_in.jose)
    default_settings stand_in.handler 2000 sample.db "carol@x.com" "carol" =
  auth_service.login (crypt := stand_in.crypt) (jose := stand_in.jose)
    default_settings stand_in.handler 2001 sample.db "alice@x.com" "guess".
Proof.
  exact (proj1 (login_failures_indistinguishable
                  (crypt := stand_in.crypt) (jose := stand_in.jose)
                  default_settings stand_in.handler 2000 2001 2002
                  sample.db sample.db sample.db
                  "carol@x.com" "alice@x.com" "alice@x.com"
                  "carol" "guess" "alice" sample.alice sample.alice
                  "token-of-alice"
                  eq_refl eq_refl eq_refl eq_refl eq_refl eq_refl)).
Defined.

(** ** C9: the authentication dependency *)

Example authenticate_alice :
  auth.call (jose := stand_in.jose) stand_in.handler 2000 sample.db
    "token-of-alice" = Return sample.alice.
Proof. vm_compute. reflexivity. Qed.

Example authenticate_garbage :
  auth.call (jose := stand_in.jose) stand_in.handler 2000 sample.db "garbage"
  = Raise (UnauthorizedException "Invalid authentication token").
Proof. vm_compute. reflexivity. Qed.

(** No row of the users has the email of the subject. *)
Lemma no_user_with_email (table : list User) (email : string) :
  (∀ u, u ∈ table → user_email u ≠ email) →
  head (filter (λ u, PStr (user_email u) = PStr email) table) = None.
Proof.
  intros Hnone. apply head_None.
  induction table as [|u table IH]; [done|].
  rewrite filter_cons. rewrite decide_False.
  - apply IH. intros u' Hin. apply Hnone. by right.
  - intros [= Heq]. apply (Hnone u); [left | done].
Qed.

(** C9.  A token that decodes to a payload whose subject is an email
    that no user has (the user was deleted after the token was issued)
    makes the dependency raise [UnauthorizedException], status 401,
    detail "User not found", and not [NotFoundException].  A token that
    decodes to a payload without a subject is refused with
    [UnauthorizedException], status 401, as well; its detail is
    "Invalid token payload". *)
Theorem unknown_subject_is_unauthorized
    {jose : Jose} (token_handler : TokenHandler) (now : Z) (db : Database)
    (deleted_token anonymous_token : string)
    (deleted_payload anonymous_payload : gmap string pyval)
    (email : string) :
  token_handler.decode_token token_handler now deleted_token =
    Return (Some deleted_payload) →
  deleted_payload !! "sub" = Some (PStr email) →
  (∀ u, u ∈ users db → user_email u ≠ email) →
  token_handler.decode_token token_handler now anonymous_token =
    Return (Some anonymous_payload) →
  anonymous_payload !! "sub" = None →
  auth.call token_handler now db deleted_token =
    Raise (UnauthorizedException "User not found") ∧
  auth.call token_handler now db anonymous_token =
    Raise (UnauthorizedException "Invalid token payload") ∧
  ∀ e, (auth.call token_handler now db deleted_token = Raise e ∨
        auth.call token_handler now db anonymous_token = Raise e) →
       status_code e = 401.
Proof.
  intros Hdec1 Hsub1 Hnone Hdec2 Hsub2.
  assert (auth.call token_handler now db deleted_token =
            Raise (UnauthorizedException "User not found")) as H1.
  { unfold auth.call. rewrite Hdec1. simpl. rewrite Hsub1.
    by rewrite no_user_with_email. }
  assert (auth.call token_handler now db anonymous_token =
            Raise (UnauthorizedException "Invalid token payload")) as H2.
  { unfold auth.call. rewrite Hdec2. simpl. by rewrite Hsub2. }
  split; [done|]. split; [done|].
  intros e [He|He]; rewrite ?H1, ?H2 in He; by injection He as <-.
Qed.

Lemma unknown_subject_is_unauthorized_witness :
  auth.call (jose := stand_in.jose) stand_in.handler 2000 sample.db
    "token-of-carol" = Raise (UnauthorizedException "User not found") ∧
  auth.call (jose := stand_in.jose) stand_in.handler 2000 sample.db
    "token-without-subject" =
    Raise (UnauthorizedException "Invalid token payload").
Proof.
  assert (∀ u, u ∈ users sample.db → user_email u ≠ "carol@x.com") as Hnone.
  { intros u Hin. apply list_elem_of_In in Hin. simpl in Hin.
    destruct Hin as [<-|[<-|[]]]; discriminate. }
  destruct (unknown_subject_is_unauthorized (jose := stand_in.jose)
              stand_in.handler 2000 sample.db
              "token-of-carol" "token-without-subject" _ _ "carol@x.com"
              eq_refl eq_refl Hnone eq_refl eq_refl) as (H1 & H2 & _).
  exact (conj H1 H2).
Defined.

(** ** C6: verification of a password against a malformed digest *)

(** C6, as amended.  [verify] returns what the [verify] of the hashing
    context returns for the password and the digest, and raises what it
    raises: the handler catches nothing.  With the context of passlib, a
    digest that does not start with an identifier of bcrypt therefore
    makes [verify] raise [UnknownHashError]; it does not return false. *)
Theorem verify_is_the_verify_of_the_context :
  (∀ (crypt : CryptContext) (plain_password hashed_password : string),
     password_handler.verify plain_password hashed_password =
       pwd_context_verify plain_password hashed_password) ∧
  (∀ checkpw (plain_password hashed_password : string),
     bcrypt_identify hashed_password = false →
     password_handler.verify (crypt := passlib_context checkpw)
       plain_password hashed_password = Raise UnknownHashError).
Proof.
  split; [done|].
  intros checkpw plain_password hashed_password Hmalformed.
  unfold password_handler.verify. simpl. by rewrite Hmalformed.
Qed.

Lemma verify_is_the_verify_of_the_context_witness :
  bcrypt_identify "" = false ∧
  password_handler.verify (crypt := stand_in.crypt) "alice" "" =
    Raise UnknownHashError.
Proof.
  split; [reflexivity|].
  exact (proj2 verify_is_the_verify_of_the_context stand_in.checkpw "alice" ""
           eq_refl).
Defined.

(** C6, as stated, fails: for the digest "not-a-bcrypt-digest", which
    is not a digest of bcrypt, [verify] raises and does not return
    false. *)
Lemma verify_raises_on_malformed_digest :
  bcrypt_identify "not-a-bcrypt-digest" = false ∧
  password_handler.verify (crypt := stand_in.crypt)
    "alice" "not-a-bcrypt-digest" = Raise UnknownHashError ∧
  password_handler.verify (crypt := stand_in.crypt)
    "alice" "not-a-bcrypt-digest" ≠ Return false.
Proof. by vm_compute. Qed.

(** The same digest in the table of the users takes the login of the
    user out of the Unauthorized outcome. *)
Example login_with_malformed_digest :
  auth_service.login (crypt := stand_in.crypt) (jose := stand_in.jose)
    default_settings stand_in.handler 2000
    (mkDatabase [mkUser 1 "Alice" "alice@x.com" "not-a-bcrypt-digest" 1000 None]
                [] [] 2 1 1)
    "alice@x.com" "alice"
  = Raise UnknownHashError.
Proof. by vm_compute. Qed.

(** ** The token handler around the library *)

(** The claim of expiry that [create_token] adds: the time of the call
    plus the duration asked for, when that is a [datetime]. *)
Lemma create_token_expiry {jose : Jose} (self : TokenHandler) (now delta : Z)
    (data : gmap string pyval) :
  delta ≠ 0 →
  datetime_min ≤ now + delta ≤ datetime_max →
  token_handler.create_token self now data (Some delta) =
    jwt_encode (<["exp" := PDatetime (now + delta)]> data)
               (_secret_key self) (_algorithm self).
Proof.
  intros Hdelta Hrange. unfold token_handler.create_token, datetime_add.
  by rewrite !decide_True.
Qed.

(** A duration of zero is falsy and gives the default duration. *)
Lemma create_token_zero_delta {jose : Jose} (self : TokenHandler) (now : Z)
    (data : gmap string pyval) :
  token_handler.create_token self now data (Some 0) =
    token_handler.create_token self now data None.
Proof. reflexivity. Qed.

(** Every [JWTError] of the library becomes [None]. *)
Lemma decode_token_catches_JWTError {jose : Jose} (self : TokenHandler)
    (now : Z) (token msg : string) :
  jwt_decode now token (_secret_key self) [_algorithm self] =
    Raise (JWTError msg) →
  token_handler.decode_token self now token = Return None.
Proof. intros Hraise. unfold token_handler.decode_token. by rewrite Hraise. Qed.

(** * Further properties of the repositories and of the services *)

Example sample_db_well_formed : well_formed sample.db.
Proof. apply (bool_decide_unpack _). by vm_compute. Qed.

Example register_carol :
  (registration.register (hasher := toy.hasher) 2000 "salt"
     sample.db toy.carol).1 =
    Return (mkUserResponse "carol@x.com" "Carol" 3 2000).
Proof. by vm_compute. Qed.

(** ** Tables: lookups after a write *)

Section table_writes.
Context {M : Type} `{Model M}.

Lemma get_by_id_is_Some (table : list M) (row : M) :
  row ∈ table → is_Some (get_by_id table (pk row)).
Proof.
  intros Hin. destruct (get_by_id table (pk row)) as [r|] eqn:Hget; [by eexists|].
  exfalso. by apply (proj1 (get_by_id_None table (pk row)) Hget row).
Qed.

(** With distinct keys, a row of the table is the one found under its
    key. *)
Lemma get_by_id_elem_of (table : list M) (row : M) :
  NoDup (pk <$> table) → row ∈ table → get_by_id table (pk row) = Some row.
Proof.
  unfold get_by_id. induction table as [|r table IH]; intros Hnd Hin.
  - by apply not_elem_of_nil in Hin.
  - rewrite fmap_cons in Hnd. apply NoDup_cons in Hnd as [Hr Hnd].
    rewrite filter_cons. apply elem_of_cons in Hin as [->|Hin].
    + by rewrite decide_True.
    + rewrite decide_False; [by apply IH|].
      intros Heq. apply Hr. rewrite Heq. by apply list_elem_of_fmap_2.
Qed.

Lemma get_by_id_filter_ne (table : list M) (key id : Z) :
  get_by_id (filter (λ row, pk row ≠ key) table) id =
    if decide (id = key) then None else get_by_id table id.
Proof.
  unfold get_by_id. rewrite list_filter_filter. case_decide as Hid.
  - apply head_None. induction table as [|r table IH]; [done|].
    rewrite filter_cons. rewrite decide_False; [done|]. intros [? ?]. congruence.
  - f_equal. apply list_filter_iff. intros row. split; [tauto|].
    intros Hrow. split; [done|congruence].
Qed.

Lemma get_by_id_write_row_fmap (table : list M) (obj : M) (id : Z) :
  get_by_id (write_row table obj) id =
    (λ row, if decide (pk row = pk obj) then obj else row) <$> get_by_id table id.
Proof.
  unfold get_by_id, write_row. induction table as [|r table IH]; [done|].
  rewrite fmap_cons, !filter_cons.
  destruct (decide (pk r = pk obj)) as [Hr|Hr].
  - destruct (decide (pk r = id)) as [Hid|Hid].
    + rewrite decide_True by congruence. simpl. by rewrite decide_True.
    + rewrite decide_False by congruence. done.
  - destruct (decide (pk r = id)) as [Hid|Hid]; [|done].
    simpl. by rewrite decide_False.
Qed.

Lemma get_by_id_write_row_ne (table : list M) (obj : M) (id : Z) :
  id ≠ pk obj → get_by_id (write_row table obj) id = get_by_id table id.
Proof.
  intros Hne. rewrite get_by_id_write_row_fmap.
  destruct (get_by_id table id) as [r|] eqn:Hget; [|done].
  apply get_by_id_Some in Hget as [_ Hpk]. simpl.
  rewrite decide_False; [done|congruence].
Qed.

Lemma pk_write_row (table : list M) (obj : M) :
  pk <$> write_row table obj = pk <$> table.
Proof.
  unfold write_row. rewrite <- list_fmap_compose.
  apply list_fmap_ext. intros _ row _. simpl. by case_decide.
Qed.

Lemma elem_of_write_row (table : list M) (obj row : M) :
  row ∈ write_row table obj → row = obj ∨ row ∈ table.
Proof.
  unfold write_row. intros Hin.
  apply list_elem_of_fmap in Hin as (r & -> & Hr). case_decide; auto.
Qed.

(** With distinct keys, writing back the row that the table holds
    changes nothing. *)
Lemma write_row_unchanged (table : list M) (row : M) :
  NoDup (pk <$> table) → row ∈ table → write_row table row = table.
Proof.
  intros Hnd Hin. unfold write_row.
  rewrite <- (list_fmap_id table) at 2. apply list_fmap_ext.
  intros idx r Hr. simpl. case_decide as Hpk; [|done].
  apply list_elem_of_lookup_2 in Hr.
  pose proof (get_by_id_elem_of table r Hnd Hr) as Hget.
  rewrite Hpk, (get_by_id_elem_of table row Hnd Hin) in Hget. congruence.
Qed.

Lemma get_by_id_snoc (table : list M) (row : M) (id : Z) :
  get_by_id (table ++ [row]) id =
    match get_by_id table id with
    | Some found => Some found
    | None => if decide (pk row = id) then Some row else None
    end.
Proof.
  unfold get_by_id. rewrite filter_app, head_app.
  destruct (head (filter (λ r, pk r = id) table)); [done|].
  rewrite filter_cons. by case_decide.
Qed.

(** X1.  [delete] answers whether a row had the key; afterwards no row has
    it, and the rows under the other keys are found as before. *)
Theorem delete_removes_the_row_only (table : list M) (id : Z) :
  (delete table id).2 = bool_decide (is_Some (get_by_id table id)) ∧
  get_by_id (delete table id).1 id = None ∧
  (∀ other, other ≠ id →
     get_by_id (delete table id).1 other = get_by_id table other) ∧
  ((delete table id).2 = false → (delete table id).1 = table).
Proof.
  unfold delete. fold (get_by_id table id).
  destruct (get_by_id table id) as [obj|] eqn:Hget; simpl.
  - apply get_by_id_Some in Hget as [_ Hpk]. rewrite Hpk.
    split; [done|]. split; [|split; [|done]].
    + rewrite get_by_id_filter_ne. by rewrite decide_True.
    + intros other Hne. rewrite get_by_id_filter_ne. by rewrite decide_False.
  - done.
Qed.
End table_writes.

(** X2.  [get_all]: a page never holds more rows than its limit, its rows
    are rows of the table, an offset at or beyond the end of the table
    gives the empty page, a limit of zero gives the empty page, and the
    page that starts at the first row and is as long as the table is
    the table.  (Offsets and limits are naturals: the database refuses
    negative ones.) *)
Theorem get_all_pages {M : Type} `{Model M} (table : list M)
    (skip limit : nat) :
  (length (get_all table skip limit) ≤ limit)%nat ∧
  (∀ row, row ∈ get_all table skip limit → row ∈ table) ∧
  get_all table (length table + skip) limit = [] ∧
  get_all table skip 0 = [] ∧
  get_all table 0 (length table) = table.
Proof.
  unfold get_all. split; [|split; [|split; [|split]]].
  - rewrite length_take. lia.
  - intros row Hin. apply elem_of_take in Hin as (n & Hn & _).
    rewrite lookup_drop in Hn. by apply list_elem_of_lookup_2 in Hn.
  - rewrite drop_ge by lia. by destruct limit.
  - done.
  - rewrite drop_0. by apply take_ge.
Qed.

Section filtered_tables.
Context {M : Type} `{Model M} (P : M → Prop) `{∀ row, Decision (P row)}.

Lemma NoDup_pk_filter (table : list M) :
  NoDup (pk <$> table) → NoDup (pk <$> filter P table).
Proof.
  induction table as [|r table IH]; [done|].
  rewrite fmap_cons, NoDup_cons. intros [Hr Hnd].
  rewrite filter_cons. case_decide; [|by apply IH].
  rewrite fmap_cons, NoDup_cons. split; [|by apply IH].
  intros Hin. apply Hr.
  apply list_elem_of_fmap in Hin as (r' & -> & Hr').
  apply list_elem_of_filter in Hr' as [_ Hr']. by apply list_elem_of_fmap_2.
Qed.

(** With distinct keys, a lookup in the selected rows finds the row of
    the table when it is selected, and nothing otherwise. *)
Lemma get_by_id_filter (table : list M) (id : Z) :
  NoDup (pk <$> table) →
  get_by_id (filter P table) id =
    match get_by_id table id with
    | Some row => if decide (P row) then Some row else None
    | None => None
    end.
Proof.
  intros Hnd. destruct (get_by_id table id) as [row|] eqn:Hget.
  - apply get_by_id_Some in Hget as [Hin <-]. case_decide as HP.
    + apply get_by_id_elem_of; [by apply NoDup_pk_filter|].
      by apply list_elem_of_filter.
    + apply get_by_id_None. intros r Hr Hpk.
      apply list_elem_of_filter in Hr as [HPr Hr].
      pose proof (get_by_id_elem_of table r Hnd Hr) as Hfound.
      rewrite Hpk, (get_by_id_elem_of table row Hnd Hin) in Hfound.
      congruence.
  - apply get_by_id_None. intros r Hr.
    apply list_elem_of_filter in Hr as [_ Hr].
    by apply (proj1 (get_by_id_None table id) Hget).
Qed.
End filtered_tables.

(** ** Deleting *)

(** What [delete_project] does for the owner. *)
Lemma delete_project_owner (db : Database) (project_id : Z) (user : User)
    (p : Project) :
  project_repository.get_by_id db project_id = Some p →
  project_created_by p = user_id user →
  project_service.delete_project db project_id user =
    (Return true,
     mkDatabase (users db)
                (filter (λ row, project_id_ row ≠ project_id) (projects db))
                (filter (λ i, issue_project_id i ≠ project_id) (issues db))
                (users_seq db) (projects_seq db) (issues_seq db)).
Proof.
  intros Hp Hown. unfold project_service.delete_project.
  rewrite Hp. rewrite decide_False by (intros Hne; by apply Hne).
  unfold project_repository.delete, delete.
  unfold project_repository.get_by_id, get_by_id in Hp. rewrite Hp.
  apply (get_by_id_Some (projects db)) in Hp as [_ Hpk].
  simpl in Hpk. simpl. by rewrite Hpk.
Qed.

(** X3.  Cascade.  When the owner deletes a project of a well-formed
    database, the service returns [True]; afterwards the project is not
    found by anyone, neither for reading nor for listing its issues,
    every issue that belonged to it is not found either, and the other
    projects, the issues of the other projects and the users are as
    before. *)
Theorem delete_project_cascades (db : Database) (project_id : Z)
    (user : User) (p : Project) :
  well_formed db →
  project_repository.get_by_id db project_id = Some p →
  project_created_by p = user_id user →
  let out := project_service.delete_project db project_id user in
  out.1 = Return true ∧
  (∀ anyone, project_service.get_project out.2 project_id anyone =
     Raise (NotFoundException "Project not found")) ∧
  (∀ anyone status priority,
     issue_service.get_project_issues out.2 project_id anyone status priority =
       Raise (NotFoundException "Project not found")) ∧
  (∀ issue_id i anyone,
     issue_repository.get_by_id db issue_id = Some i →
     issue_project_id i = project_id →
     issue_service.get_issue out.2 issue_id anyone =
       Raise (NotFoundException "Issue not found")) ∧
  (∀ other, other ≠ project_id →
     project_repository.get_by_id out.2 other =
       project_repository.get_by_id db other) ∧
  (∀ issue_id i,
     issue_repository.get_by_id db issue_id = Some i →
     issue_project_id i ≠ project_id →
     issue_repository.get_by_id out.2 issue_id = Some i) ∧
  users out.2 = users db.
Proof.
  intros Hwf Hp Hown out. subst out.
  rewrite (delete_project_owner db project_id user p Hp Hown). cbn [fst snd].
  destruct Hwf as (_ & _ & _ & Hissues & _).
  assert (∀ id, project_repository.get_by_id
            (mkDatabase (users db)
               (filter (λ row, project_id_ row ≠ project_id) (projects db))
               (filter (λ i, issue_project_id i ≠ project_id) (issues db))
               (users_seq db) (projects_seq db) (issues_seq db)) id =
          if decide (id = project_id) then None
          else project_repository.get_by_id db id) as Hprojects.
  { intros id. unfold project_repository.get_by_id. simpl.
    exact (get_by_id_filter_ne (projects db) project_id id). }
  assert (∀ id, issue_repository.get_by_id
            (mkDatabase (users db)
               (filter (λ row, project_id_ row ≠ project_id) (projects db))
               (filter (λ i, issue_project_id i ≠ project_id) (issues db))
               (users_seq db) (projects_seq db) (issues_seq db)) id =
          match issue_repository.get_by_id db id with
          | Some i => if decide (issue_project_id i ≠ project_id)
                      then Some i else None
          | None => None
          end) as Hlookup.
  { intros id. unfold issue_repository.get_by_id. simpl.
    exact (get_by_id_filter (λ i, issue_project_id i ≠ project_id)
             (issues db) id Hissues). }
  split; [done|]. split; [|split; [|split; [|split; [|split; [|done]]]]].
  - intros anyone. unfold project_service.get_project.
    rewrite Hprojects. by rewrite decide_True.
  - intros anyone status priority. unfold issue_service.get_project_issues.
    rewrite Hprojects. by rewrite decide_True.
  - intros issue_id i anyone Hi Hpid. unfold issue_service.get_issue.
    rewrite Hlookup, Hi. rewrite decide_False; [done|]. intros Hne. by apply Hne.
  - intros other Hne. rewrite Hprojects. by rewrite decide_False.
  - intros issue_id i Hi Hne. rewrite Hlookup, Hi. by rewrite decide_True.
Qed.

Lemma delete_project_cascades_witness :
  issue_service.get_issue
    (project_service.delete_project sample.db 1 sample.alice).2 3 sample.alice
  = Raise (NotFoundException "Issue not found") ∧
  issue_repository.get_by_id
    (project_service.delete_project sample.db 1 sample.alice).2 4
  = Some sample.other.
Proof.
  destruct (delete_project_cascades sample.db 1 sample.alice sample.P1
              sample_db_well_formed eq_refl eq_refl)
    as (_ & _ & _ & Hgone & _ & Hkept & _).
  split.
  - exact (Hgone 3 sample.chore sample.alice eq_refl eq_refl).
  - refine (Hkept 4 sample.other eq_refl _). vm_compute. discriminate.
Defined.

(** What [delete_issue] does for the owner of the project. *)
Lemma delete_issue_owner (db : Database) (issue_id : Z) (user : User)
    (i : Issue) (p : Project) :
  issue_repository.get_by_id db issue_id = Some i →
  project_repository.get_by_id db (issue_project_id i) = Some p →
  project_created_by p = user_id user →
  issue_service.delete_issue db issue_id user =
    (Return true,
     mkDatabase (users db) (projects db)
                (filter (λ row, issue_id_ row ≠ issue_id) (issues db))
                (users_seq db) (projects_seq db) (issues_seq db)).
Proof.
  intros Hi Hp Hown. unfold issue_service.delete_issue.
  rewrite Hi, Hp. rewrite decide_False by (intros Hne; by apply Hne).
  unfold issue_repository.delete, delete.
  unfold issue_repository.get_by_id, get_by_id in Hi. rewrite Hi.
  apply (get_by_id_Some (issues db)) in Hi as [_ Hpk].
  simpl in Hpk. simpl. by rewrite Hpk.
Qed.

(** X4.  When the owner of the project deletes an issue, the service returns
    [True]; afterwards the issue is not found by anyone, a second delete
    raises [NotFoundException] and leaves the database as it is, and the
    other issues, the projects and the users are as before. *)
Theorem delete_issue_removes_it_only (db : Database) (issue_id : Z)
    (user : User) (i : Issue) (p : Project) :
  issue_repository.get_by_id db issue_id = Some i →
  project_repository.get_by_id db (issue_project_id i) = Some p →
  project_created_by p = user_id user →
  let out := issue_service.delete_issue db issue_id user in
  out.1 = Return true ∧
  (∀ anyone, issue_service.get_issue out.2 issue_id anyone =
     Raise (NotFoundException "Issue not found")) ∧
  issue_service.delete_issue out.2 issue_id user =
    (Raise (NotFoundException "Issue not found"), out.2) ∧
  (∀ other, other ≠ issue_id →
     issue_repository.get_by_id out.2 other =
       issue_repository.get_by_id db other) ∧
  projects out.2 = projects db ∧
  users out.2 = users db.
Proof.
  intros Hi Hp Hown out. subst out.
  rewrite (delete_issue_owner db issue_id user i p Hi Hp Hown). cbn [fst snd].
  assert (∀ id, issue_repository.get_by_id
            (mkDatabase (users db) (projects db)
               (filter (λ row, issue_id_ row ≠ issue_id) (issues db))
               (users_seq db) (projects_seq db) (issues_seq db)) id =
          if decide (id = issue_id) then None
          else issue_repository.get_by_id db id) as Hlookup.
  { intros id. exact (get_by_id_filter_ne (issues db) issue_id id). }
  split; [done|]. split; [|split; [|split; [|done]]].
  - intros anyone. unfold issue_service.get_issue.
    rewrite Hlookup. by rewrite decide_True.
  - unfold issue_service.delete_issue. rewrite Hlookup. by rewrite decide_True.
  - intros other Hne. rewrite Hlookup. by rewrite decide_False.
Qed.

Lemma delete_issue_removes_it_only_witness :
  issue_service.get_issue
    (issue_service.delete_issue sample.db 3 sample.alice).2 3 sample.alice
  = Raise (NotFoundException "Issue not found").
Proof.
  destruct (delete_issue_removes_it_only sample.db 3 sample.alice
              sample.chore sample.P1 eq_refl eq_refl eq_refl)
    as (_ & Hgone & _).
  exact (Hgone sample.alice).
Defined.

(** ** Who is served *)

(** X5.  A service that takes a project id returns a result exactly when the
    project exists and the user is its owner: an owner is never
    refused. *)
Theorem project_access_iff_owner (db : Database) (project_id : Z)
    (user : User) :
  let owned :=
    ∃ p, project_repository.get_by_id db project_id = Some p ∧
         project_created_by p = user_id user in
  (∀ p, project_service.get_project db project_id user = Return p ↔
        project_repository.get_by_id db project_id = Some p ∧
        project_created_by p = user_id user) ∧
  (∀ now data,
     (∃ r, (project_service.update_project now db project_id data user).1
           = Return r) ↔ owned) ∧
  ((∃ r, (project_service.delete_project db project_id user).1 = Return r)
     ↔ owned) ∧
  (∀ status priority,
     (∃ r, issue_service.get_project_issues db project_id user status priority
           = Return r) ↔ owned) ∧
  (∀ now data,
     (∃ r, (issue_service.create_issue now db project_id data user).1
           = Return r) ↔ owned).
Proof.
  intros owned. subst owned.
  unfold project_service.get_project, project_service.update_project,
    project_service.delete_project, issue_service.get_project_issues,
    issue_service.create_issue.
  destruct (project_repository.get_by_id db project_id) as [p|].
  - destruct (decide (project_created_by p ≠ user_id user)) as [Hne|Heq].
    + repeat split; intros; simpl in *;
        try match goal with H : ∃ _, _ |- _ => destruct H as (? & ?) end;
        try match goal with H : _ ∧ _ |- _ => destruct H as (? & ?) end;
        simplify_eq; done.
    + apply dec_stable in Heq.
      repeat split; intros; simpl in *;
        try match goal with H : ∃ _, _ |- _ => destruct H as (? & ?) end;
        try match goal with H : _ ∧ _ |- _ => destruct H as (? & ?) end;
        simplify_eq; eauto.
      all: repeat match goal with
                  | |- context [let '(_, _) := ?x in _] => destruct x
                  end; simpl; eauto.
  - repeat split; intros; simpl in *;
      try match goal with H : ∃ _, _ |- _ => destruct H as (? & ?) end;
      try match goal with H : _ ∧ _ |- _ => destruct H as (? & ?) end;
      simplify_eq; done.
Qed.

(** X6.  A service that takes an issue id returns a result exactly when the
    issue exists, its project exists and the user owns the project. *)
Theorem issue_access_iff_owner (db : Database) (issue_id : Z) (user : User) :
  let owned :=
    ∃ i p, issue_repository.get_by_id db issue_id = Some i ∧
           project_repository.get_by_id db (issue_project_id i) = Some p ∧
           project_created_by p = user_id user in
  (∀ i, issue_service.get_issue db issue_id user = Return i ↔
        issue_repository.get_by_id db issue_id = Some i ∧
        ∃ p, project_repository.get_by_id db (issue_project_id i) = Some p ∧
             project_created_by p = user_id user) ∧
  (∀ now data,
     (∃ r, (issue_service.update_issue now db issue_id data user).1 = Return r)
       ↔ owned) ∧
  ((∃ r, (issue_service.delete_issue db issue_id user).1 = Return r) ↔ owned).
Proof.
  intros owned. subst owned.
  unfold issue_service.get_issue, issue_service.update_issue,
    issue_service.delete_issue.
  destruct (issue_repository.get_by_id db issue_id) as [i|] eqn:Hi;
    [destruct (project_repository.get_by_id db (issue_project_id i))
       as [p|] eqn:Hp;
     [destruct (decide (project_created_by p ≠ user_id user)) as [Hne|Heq];
      [|apply dec_stable in Heq]|]|].
  all: repeat split; intros; simpl in *;
    repeat match goal with
           | H : ∃ _, _ |- _ => destruct H as (? & ?)
           | H : _ ∧ _ |- _ => destruct H as (? & ?)
           end;
    simplify_eq; eauto 6.
  all: repeat match goal with
              | |- context [let '(_, _) := ?x in _] => destruct x
              end; simpl; eauto.
Qed.

(** X7.  An issue whose project is not found.  The issue services read
    [project.created_by] without testing the project: they raise
    [AttributeError] (a response 500) for every user, and write
    nothing. *)
Theorem orphan_issue_raises_AttributeError (db : Database) (issue_id : Z)
    (i : Issue) (user : User) :
  issue_repository.get_by_id db issue_id = Some i →
  project_repository.get_by_id db (issue_project_id i) = None →
  issue_service.get_issue db issue_id user = Raise issue_service.no_project ∧
  (∀ now data, issue_service.update_issue now db issue_id data user =
     (Raise issue_service.no_project, db)) ∧
  issue_service.delete_issue db issue_id user =
    (Raise issue_service.no_project, db) ∧
  status_code issue_service.no_project = 500.
Proof.
  intros Hi Hp.
  unfold issue_service.get_issue, issue_service.update_issue,
    issue_service.delete_issue.
  by rewrite Hi, Hp.
Qed.

Lemma orphan_issue_raises_AttributeError_witness :
  issue_service.get_issue sample_orphan.db 9 sample.alice =
    Raise (AttributeError "'NoneType' object has no attribute 'created_by'").
Proof.
  exact (proj1 (orphan_issue_raises_AttributeError sample_orphan.db 9
                  sample_orphan.stray sample.alice eq_refl eq_refl)).
Defined.

(** X8.  In a well-formed database that does not happen: whatever the
    request, an issue service that raises raises [NotFoundException] or
    [ForbiddenException]. *)
Theorem issue_services_raise_404_or_403 (db : Database) (issue_id : Z)
    (user : User) (e : exn) :
  well_formed db →
  (issue_service.get_issue db issue_id user = Raise e ∨
   (∃ now data,
      (issue_service.update_issue now db issue_id data user).1 = Raise e) ∨
   (issue_service.delete_issue db issue_id user).1 = Raise e) →
  e = NotFoundException "Issue not found" ∨
  ∃ detail, e = ForbiddenException detail.
Proof.
  intros Hwf.
  destruct Hwf as (_ & _ & _ & _ & _ & _ & _ & _ & Hfk & _).
  rewrite Forall_forall in Hfk.
  unfold issue_service.get_issue, issue_service.update_issue,
    issue_service.delete_issue.
  destruct (issue_repository.get_by_id db issue_id) as [i|] eqn:Hi.
  - apply (get_by_id_Some (issues db)) in Hi as [Hin _].
    destruct (Hfk i Hin) as [p Hp].
    unfold project_repository.get_by_id. rewrite Hp.
    destruct (decide (project_created_by p ≠ user_id user)).
    + intros [He|[(now & data & He)|He]]; simpl in He; simplify_eq; eauto.
    + intros [He|[(now & data & He)|He]]; simpl in He; try done;
        repeat match type of He with
               | context [let '(_, _) := ?x in _] => destruct x
               end; done.
  - intros [He|[(now & data & He)|He]]; simpl in He; simplify_eq; eauto.
Qed.

Lemma issue_services_raise_404_or_403_witness :
  issue_service.get_issue sample.db 77 sample.alice =
    Raise (NotFoundException "Issue not found") ∧
  (NotFoundException "Issue not found" = NotFoundException "Issue not found" ∨
   ∃ detail, NotFoundException "Issue not found" = ForbiddenException detail).
Proof.
  split; [reflexivity|].
  apply (issue_services_raise_404_or_403 sample.db 77 sample.alice
           (NotFoundException "Issue not found") sample_db_well_formed).
  left. reflexivity.
Defined.

(** ** The integrity of the database is kept *)

Section integrity_lemmas.
Context {M : Type} `{Model M}.

Lemma Forall_write_row (Q : M → Prop) (table : list M) (obj : M) :
  Forall Q table → Q obj → Forall Q (write_row table obj).
Proof.
  rewrite !Forall_forall. intros Hall Hobj row Hin.
  apply elem_of_write_row in Hin as [->|Hin]; auto.
Qed.

Lemma Forall_filter_sub (Q P : M → Prop) `{∀ row, Decision (P row)}
    (table : list M) :
  Forall Q table → Forall Q (filter P table).
Proof.
  rewrite !Forall_forall. intros Hall row Hin.
  apply list_elem_of_filter in Hin as [_ Hin]. auto.
Qed.

Lemma is_Some_get_by_id_write_row (table : list M) (obj : M) (id : Z) :
  is_Some (get_by_id table id) → is_Some (get_by_id (write_row table obj) id).
Proof.
  intros Hsome. rewrite get_by_id_write_row_fmap. by apply fmap_is_Some.
Qed.

Lemma is_Some_get_by_id_snoc (table : list M) (row : M) (id : Z) :
  is_Some (get_by_id table id) →
  is_Some (get_by_id (table ++ [row])%list id).
Proof.
  intros [found Hfound]. rewrite get_by_id_snoc, Hfound. by eexists.
Qed.

(** A key at or above every key of the table is a new key. *)
Lemma NoDup_pk_snoc (table : list M) (row : M) (seq : Z) :
  NoDup (pk <$> table) → Forall (λ r, pk r < seq) table → seq ≤ pk row →
  NoDup (pk <$> (table ++ [row])%list).
Proof.
  intros Hnd Hseq Hrow. rewrite fmap_snoc. apply NoDup_app.
  split; [done|]. split; [|apply NoDup_singleton].
  intros key Hkey Hnew. apply list_elem_of_singleton in Hnew as ->.
  apply list_elem_of_fmap in Hkey as (r & Hpk & Hr).
  rewrite Forall_forall in Hseq. specialize (Hseq r Hr). lia.
Qed.

Lemma get_by_id_fresh (table : list M) (seq : Z) :
  Forall (λ r, pk r < seq) table → get_by_id table seq = None.
Proof.
  rewrite Forall_forall. intros Hseq. apply get_by_id_None.
  intros row Hin. specialize (Hseq row Hin). lia.
Qed.
End integrity_lemmas.

Lemma well_formed_write_issue (db : Database) (i after : Issue) :
  well_formed db → i ∈ issues db →
  issue_id_ after = issue_id_ i →
  issue_project_id after = issue_project_id i →
  issue_created_by after = issue_created_by i →
  well_formed (mkDatabase (users db) (projects db)
                 (write_row (issues db) after)
                 (users_seq db) (projects_seq db) (issues_seq db)).
Proof.
  intros (Hu & He & Hp & Hi & Hus & Hps & His & Hpo & Hip & Hic)
         Hin Hid Hpid Hcb.
  rewrite Forall_forall in His, Hip, Hic.
  unfold well_formed. simpl. repeat split; try done.
  - change issue_id_ with (pk (M := Issue)). by rewrite pk_write_row.
  - apply Forall_write_row; [by apply Forall_forall|].
    rewrite Hid. by apply His.
  - apply Forall_write_row; [by apply Forall_forall|].
    rewrite Hpid. by apply Hip.
  - apply Forall_write_row; [by apply Forall_forall|].
    rewrite Hcb. by apply Hic.
Qed.

Lemma well_formed_write_project (db : Database) (p after : Project) :
  well_formed db → p ∈ projects db →
  project_id_ after = project_id_ p →
  project_created_by after = project_created_by p →
  well_formed (mkDatabase (users db) (write_row (projects db) after)
                 (issues db)
                 (users_seq db) (projects_seq db) (issues_seq db)).
Proof.
  intros (Hu & He & Hp & Hi & Hus & Hps & His & Hpo & Hip & Hic) Hin Hid Hcb.
  rewrite Forall_forall in Hps, Hpo.
  unfold well_formed. simpl. repeat split; try done.
  - change project_id_ with (pk (M := Project)). by rewrite pk_write_row.
  - apply Forall_write_row; [by apply Forall_forall|].
    rewrite Hid. by apply Hps.
  - apply Forall_write_row; [by apply Forall_forall|].
    rewrite Hcb. by apply Hpo.
  - eapply Forall_impl; [exact Hip|]. intros i Hsome.
    by apply is_Some_get_by_id_write_row.
Qed.

Lemma well_formed_remove_issue (db : Database) (id : Z) :
  well_formed db →
  well_formed (mkDatabase (users db) (projects db)
                 (filter (λ row, issue_id_ row ≠ id) (issues db))
                 (users_seq db) (projects_seq db) (issues_seq db)).
Proof.
  intros (Hu & He & Hp & Hi & Hus & Hps & His & Hpo & Hip & Hic).
  unfold well_formed. simpl. repeat split; try done.
  - exact (NoDup_pk_filter (λ row, issue_id_ row ≠ id) (issues db) Hi).
  - by apply Forall_filter_sub.
  - by apply Forall_filter_sub.
  - by apply Forall_filter_sub.
Qed.

Lemma well_formed_remove_project (db : Database) (id : Z) :
  well_formed db →
  well_formed (mkDatabase (users db)
                 (filter (λ row, project_id_ row ≠ id) (projects db))
                 (filter (λ i, issue_project_id i ≠ id) (issues db))
                 (users_seq db) (projects_seq db) (issues_seq db)).
Proof.
  intros (Hu & He & Hp & Hi & Hus & Hps & His & Hpo & Hip & Hic).
  unfold well_formed. simpl. repeat split; try done.
  - exact (NoDup_pk_filter (λ row, project_id_ row ≠ id) (projects db) Hp).
  - exact (NoDup_pk_filter (λ i, issue_project_id i ≠ id) (issues db) Hi).
  - by apply Forall_filter_sub.
  - by apply Forall_filter_sub.
  - by apply Forall_filter_sub.
  - rewrite Forall_forall in Hip. apply Forall_forall. intros i Hin.
    apply list_elem_of_filter in Hin as [Hne Hin].
    pose proof (get_by_id_filter_ne (projects db) id (issue_project_id i))
      as Hlookup. simpl in Hlookup. rewrite Hlookup.
    rewrite decide_False by done. by apply Hip.
  - by apply Forall_filter_sub.
Qed.

Lemma well_formed_add_project (db : Database) (p : Project) :
  well_formed db →
  project_id_ p = projects_seq db →
  is_Some (get_by_id (users db) (project_created_by p)) →
  well_formed (mkDatabase (users db) (projects db ++ [p]) (issues db)
                 (users_seq db) (projects_seq db + 1) (issues_seq db)).
Proof.
  intros (Hu & He & Hp & Hi & Hus & Hps & His & Hpo & Hip & Hic) Hid Hown.
  unfold well_formed. simpl. repeat split; try done.
  - apply (NoDup_pk_snoc (H := Project_Model) (projects db) p
             (projects_seq db) Hp Hps).
    simpl. lia.
  - apply Forall_app. split.
    + eapply Forall_impl; [exact Hps|]. simpl. intros; lia.
    + apply Forall_singleton. lia.
  - apply Forall_app. split; [done|]. by apply Forall_singleton.
  - eapply Forall_impl; [exact Hip|]. intros i Hsome.
    by apply is_Some_get_by_id_snoc.
Qed.

Lemma well_formed_add_issue (db : Database) (i : Issue) :
  well_formed db →
  issue_id_ i = issues_seq db →
  is_Some (get_by_id (projects db) (issue_project_id i)) →
  is_Some (get_by_id (users db) (issue_created_by i)) →
  well_formed (mkDatabase (users db) (projects db) (issues db ++ [i])
                 (users_seq db) (projects_seq db) (issues_seq db + 1)).
Proof.
  intros (Hu & He & Hp & Hi & Hus & Hps & His & Hpo & Hip & Hic)
         Hid Hproject Hcreator.
  unfold well_formed. simpl. repeat split; try done.
  - apply (NoDup_pk_snoc (H := Issue_Model) (issues db) i
             (issues_seq db) Hi His).
    simpl. lia.
  - apply Forall_app. split.
    + eapply Forall_impl; [exact His|]. simpl. intros; lia.
    + apply Forall_singleton. lia.
  - apply Forall_app. split; [done|]. by apply Forall_singleton.
  - apply Forall_app. split; [done|]. by apply Forall_singleton.
Qed.

Lemma well_formed_add_user (db : Database) (u : User) :
  well_formed db →
  user_id u = users_seq db →
  (∀ u', u' ∈ users db → user_email u' ≠ user_email u) →
  well_formed (mkDatabase (users db ++ [u]) (projects db) (issues db)
                 (users_seq db + 1) (projects_seq db) (issues_seq db)).
Proof.
  intros (Hu & He & Hp & Hi & Hus & Hps & His & Hpo & Hip & Hic) Hid Hemail.
  unfold well_formed. simpl. repeat split; try done.
  - apply (NoDup_pk_snoc (H := User_Model) (users db) u
             (users_seq db) Hu Hus).
    simpl. lia.
  - rewrite fmap_snoc. apply NoDup_app. split; [done|].
    split; [|apply NoDup_singleton].
    intros email Hold Hnew. apply list_elem_of_singleton in Hnew as ->.
    apply list_elem_of_fmap in Hold as (u' & Heq & Hu').
    by apply (Hemail u' Hu').
  - apply Forall_app. split.
    + eapply Forall_impl; [exact Hus|]. simpl. intros; lia.
    + apply Forall_singleton. lia.
  - eapply Forall_impl; [exact Hpo|]. intros p Hsome.
    by apply is_Some_get_by_id_snoc.
  - eapply Forall_impl; [exact Hic|]. intros i Hsome.
    by apply is_Some_get_by_id_snoc.
Qed.

(** X9.  Every service that writes leaves a well-formed database well
    formed, whatever its arguments and whether it succeeds or raises:
    keys stay distinct and below their sequence, emails stay distinct,
    and no project or issue is left without its owner, creator or
    parent project (deleting a project takes its issues along).  This
    holds for every user and every database, an empty one included;
    only [create_project], which records its caller as the owner, needs
    the caller to be a row of the table of the users, as the
    authentication dependency returns it. *)
Theorem services_keep_the_database_well_formed (db : Database) :
  well_formed db →
  (∀ user now data,
     user ∈ users db →
     well_formed (project_service.create_project now db data user).2) ∧
  (∀ user now id data,
     well_formed (project_service.update_project now db id data user).2) ∧
  (∀ user id, well_formed (project_service.delete_project db id user).2) ∧
  (∀ user now id data,
     well_formed (issue_service.create_issue now db id data user).2) ∧
  (∀ user now id data,
     well_formed (issue_service.update_issue now db id data user).2) ∧
  (∀ user id, well_formed (issue_service.delete_issue db id user).2) ∧
  (∀ (hasher : CryptContextHash) now salt data,
     well_formed (registration.register now salt db data).2).
Proof.
  intros Hwf.
  split; [|split; [|split; [|split; [|split; [|split]]]]].
  - intros user now data Huser.
    pose proof (get_by_id_is_Some (users db) user Huser) as Hknown.
    unfold project_service.create_project. simpl.
    by apply well_formed_add_project.
  - intros user now id data. unfold project_service.update_project.
    destruct (project_repository.get_by_id db id) as [p|] eqn:Hp; [|done].
    case_decide; [done|].
    unfold project_repository.update, update. simpl.
    rewrite assign_items_ProjectUpdate.
    destruct (flush_Project_columns now p (Project_patched data p))
      as (Hid & _ & _ & Hcb & _).
    apply (get_by_id_Some (projects db)) in Hp as [Hin _].
    by apply (well_formed_write_project db p).
  - intros user id. unfold project_service.delete_project.
    destruct (project_repository.get_by_id db id) as [p|] eqn:Hp; [|done].
    case_decide; [done|].
    unfold project_repository.delete, delete.
    unfold project_repository.get_by_id, get_by_id in Hp. rewrite Hp.
    apply (get_by_id_Some (projects db)) in Hp as [_ Hpk].
    simpl in Hpk. simpl. rewrite Hpk.
    by apply well_formed_remove_project.
  - intros user now id data. unfold issue_service.create_issue.
    destruct (project_repository.get_by_id db id) as [p|] eqn:Hp; [|done].
    case_decide as Hown; [done|]. simpl.
    apply well_formed_add_issue; [done|done|by eexists|]. simpl.
    destruct Hwf as (_ & _ & _ & _ & _ & _ & _ & Hpo & _).
    rewrite Forall_forall in Hpo. rewrite <- Hown. apply Hpo.
    by apply (get_by_id_Some (projects db)) in Hp as [? _].
  - intros user now id data. unfold issue_service.update_issue.
    destruct (issue_repository.get_by_id db id) as [i|] eqn:Hi; [|done].
    destruct (project_repository.get_by_id db (issue_project_id i));
      [|done].
    case_decide; [done|].
    unfold issue_repository.update, update. simpl.
    rewrite assign_items_IssueUpdate.
    destruct (flush_Issue_columns now i (Issue_patched data i) eq_refl)
      as (Hid & Hpid & _ & _ & _ & _ & Hcb & _).
    apply (get_by_id_Some (issues db)) in Hi as [Hin _].
    by apply (well_formed_write_issue db i).
  - intros user id. unfold issue_service.delete_issue.
    destruct (issue_repository.get_by_id db id) as [i|] eqn:Hi; [|done].
    destruct (project_repository.get_by_id db (issue_project_id i));
      [|done].
    case_decide; [done|].
    unfold issue_repository.delete, delete.
    unfold issue_repository.get_by_id, get_by_id in Hi. rewrite Hi.
    apply (get_by_id_Some (issues db)) in Hi as [_ Hpk].
    simpl in Hpk. simpl. rewrite Hpk.
    by apply well_formed_remove_issue.
  - intros hasher now salt data. unfold registration.register.
    destruct (user_repository.get_by_email db (reg_email data)) eqn:Hemail;
      [done|].
    destruct (password_hashing.hash salt (reg_password data)); [|done].
    simpl. apply well_formed_add_user; [done|done|]. simpl.
    intros u' Hu' Heq.
    unfold user_repository.get_by_email in Hemail.
    apply head_None in Hemail.
    assert (u' ∈ filter (λ u, user_email u = reg_email data) (users db)) as Hf
      by (by apply list_elem_of_filter).
    rewrite Hemail in Hf. by apply not_elem_of_nil in Hf.
Qed.

Lemma services_keep_the_database_well_formed_witness :
  well_formed (project_service.delete_project sample.db 1 sample.alice).2 ∧
  well_formed
    (project_service.create_project 2000 sample.db
       (mkProjectCreate "P3" None) sample.bob).2 ∧
  well_formed
    (registration.register (hasher := toy.hasher) 2000 "salt"
       (mkDatabase [] [] [] 1 1 1) toy.carol).2.
Proof.
  destruct (services_keep_the_database_well_formed sample.db
              sample_db_well_formed)
    as (Hcreate & _ & Hdelete & _).
  assert (well_formed (mkDatabase [] [] [] 1 1 1)) as Hempty
    by (apply (bool_decide_unpack _); by vm_compute).
  destruct (services_keep_the_database_well_formed
              (mkDatabase [] [] [] 1 1 1) Hempty)
    as (_ & _ & _ & _ & _ & _ & Hregister).
  split; [|split].
  - exact (Hdelete sample.alice 1).
  - apply Hcreate. simpl. right. left.
  - exact (Hregister toy.hasher 2000 "salt" toy.carol).
Defined.

(** ** Creating *)

(** X10.  A project created through the service is returned with the next key
    of the sequence, the name and description of the request, its
    creator as owner and no [updated_at].  In a well-formed database it
    is then found under that key by its creator, refused to every other
    user, listed among the projects of its creator, and its listing of
    issues is empty; the projects under the other keys are found as
    before. *)
Theorem created_project_belongs_to_its_creator
    (now : Z) (db : Database) (data : ProjectCreate) (user : User) :
  well_formed db →
  let out := project_service.create_project now db data user in
  let p := mkProject (projects_seq db) (new_name data)
                     (new_project_description data) (user_id user) now None in
  out.1 = Return p ∧
  project_service.get_project out.2 (projects_seq db) user = Return p ∧
  (∀ other, user_id other ≠ user_id user →
     is_Forbidden (project_service.get_project out.2 (projects_seq db) other)) ∧
  p ∈ project_service.get_user_projects out.2 user ∧
  issue_service.get_project_issues out.2 (projects_seq db) user None None =
    Return [] ∧
  (∀ id, id ≠ projects_seq db →
     project_repository.get_by_id out.2 id =
       project_repository.get_by_id db id).
Proof.
  intros Hwf out p. subst out.
  destruct Hwf as (_ & _ & _ & _ & _ & Hps & _ & _ & Hip & _).
  unfold project_service.create_project. simpl. fold p.
  assert (∀ id, project_repository.get_by_id
            (mkDatabase (users db) (projects db ++ [p]) (issues db)
               (users_seq db) (projects_seq db + 1) (issues_seq db)) id =
          match project_repository.get_by_id db id with
          | Some found => Some found
          | None => if decide (projects_seq db = id) then Some p else None
          end) as Hlookup.
  { intros id. exact (get_by_id_snoc (projects db) p id). }
  assert (project_repository.get_by_id db (projects_seq db) = None) as Hfresh.
  { exact (get_by_id_fresh (H := Project_Model) (projects db)
             (projects_seq db) Hps). }
  split; [done|]. split; [|split; [|split; [|split]]].
  - unfold project_service.get_project. rewrite Hlookup, Hfresh.
    rewrite decide_True by done. rewrite decide_False; [done|].
    intros Hne. by apply Hne.
  - intros other Hother. unfold project_service.get_project, is_Forbidden.
    rewrite Hlookup, Hfresh. rewrite decide_True by done.
    rewrite decide_True; [by eexists|]. simpl. congruence.
  - unfold project_service.get_user_projects, ProjectResponse_model_validate.
    rewrite (list_fmap_id (A := Project)).
    unfold project_repository.get_user_projects. simpl.
    apply list_elem_of_filter. split; [done|].
    apply elem_of_app. right. by apply list_elem_of_singleton.
  - unfold issue_service.get_project_issues. rewrite Hlookup, Hfresh.
    rewrite decide_True by done. rewrite decide_False
      by (intros Hne; by apply Hne).
    unfold issue_repository.get_project_issues. simpl.
    replace (filter (λ i, issue_project_id i = projects_seq db) (issues db))
      with (@nil Issue); [done|].
    symmetry. apply elem_of_nil_inv. intros i Hin.
    apply list_elem_of_filter in Hin as [Hpid Hin].
    rewrite Forall_forall in Hip. destruct (Hip i Hin) as [q Hq].
    rewrite Hpid in Hq. unfold project_repository.get_by_id in Hfresh.
    congruence.
  - intros id Hne. rewrite Hlookup.
    destruct (project_repository.get_by_id db id); [done|].
    by rewrite decide_False.
Qed.

Lemma created_project_belongs_to_its_creator_witness :
  project_service.get_project
    (project_service.create_project 2000 sample.db
       (mkProjectCreate "P3" None) sample.bob).2 3 sample.bob
  = Return (mkProject 3 "P3" None 2 2000 None).
Proof.
  destruct (created_project_belongs_to_its_creator 2000 sample.db
              (mkProjectCreate "P3" None) sample.bob sample_db_well_formed)
    as (_ & Hget & _).
  exact Hget.
Defined.

(** The rows that a listing selects from a table with one more issue. *)
Lemma get_project_issues_snoc (db : Database) (i : Issue) (seq : Z)
    (project_id : Z) (status : option IssueStatus)
    (priority : option IssuePriority) :
  issue_repository.get_project_issues
    (mkDatabase (users db) (projects db) (issues db ++ [i])
       (users_seq db) (projects_seq db) seq) project_id status priority
  ≡ₚ (if decide (matches project_id status priority i) then [i] else []) ++
     issue_repository.get_project_issues db project_id status priority.
Proof.
  rewrite !get_project_issues_selects. simpl.
  rewrite !merge_sort_Permutation. rewrite filter_app, filter_cons, filter_nil.
  apply Permutation_app_comm.
Qed.

(** X11.  An issue created by the owner of the project is returned with the
    next key of the sequence, the fields of the request, its creator,
    and the time of the database as [created_at] and [updated_at].  In a
    well-formed database it is then found under that key, it is added to
    every listing of the project whose filters it passes and to no
    other, and when the clock of the database is ahead of every issue of
    the table it comes first in these listings.  The issues under the
    other keys are found as before. *)
Theorem created_issue_is_listed_first
    (now : Z) (db : Database) (project_id : Z) (data : IssueCreate)
    (user : User) (p : Project) :
  well_formed db →
  project_repository.get_by_id db project_id = Some p →
  project_created_by p = user_id user →
  let out := issue_service.create_issue now db project_id data user in
  let i := mkIssue (issues_seq db) project_id (new_title data)
                   (new_description data) (new_status data)
                   (new_priority data) (user_id user) now now in
  out.1 = Return i ∧
  issue_service.get_issue out.2 (issues_seq db) user = Return i ∧
  (∀ status priority,
     issue_repository.get_project_issues out.2 project_id status priority ≡ₚ
       (if decide (matches project_id status priority i) then [i] else []) ++
       issue_repository.get_project_issues db project_id status priority) ∧
  (∀ status priority,
     matches project_id status priority i →
     Forall (λ j, issue_created_at j < now) (issues db) →
     head (issue_repository.get_project_issues out.2 project_id status priority)
       = Some i) ∧
  (∀ id, id ≠ issues_seq db →
     issue_repository.get_by_id out.2 id = issue_repository.get_by_id db id).
Proof.
  intros Hwf Hp Hown out i. subst out.
  destruct Hwf as (_ & _ & _ & _ & _ & _ & His & _).
  unfold issue_service.create_issue. rewrite Hp.
  rewrite decide_False by (intros Hne; by apply Hne). simpl. fold i.
  set (db' := mkDatabase (users db) (projects db) (issues db ++ [i])
                (users_seq db) (projects_seq db) (issues_seq db + 1)).
  assert (∀ id, issue_repository.get_by_id db' id =
          match issue_repository.get_by_id db id with
          | Some found => Some found
          | None => if decide (issues_seq db = id) then Some i else None
          end) as Hlookup.
  { intros id. exact (get_by_id_snoc (issues db) i id). }
  assert (issue_repository.get_by_id db (issues_seq db) = None) as Hfresh.
  { exact (get_by_id_fresh (H := Issue_Model) (issues db) (issues_seq db) His). }
  split; [done|]. split; [|split; [|split]].
  - unfold issue_service.get_issue. rewrite Hlookup, Hfresh.
    rewrite decide_True by done. simpl.
    change (project_repository.get_by_id db' project_id)
      with (project_repository.get_by_id db project_id).
    rewrite Hp. rewrite decide_False; [done|]. intros Hne. by apply Hne.
  - intros status priority. apply get_project_issues_snoc.
  - intros status priority Hmatches Hclock.
    pose proof (get_project_issues_snoc db i (issues_seq db + 1) project_id
                  status priority) as Hperm.
    fold db' in Hperm. rewrite decide_True in Hperm by done.
    pose proof (StronglySorted_merge_sort created_at_desc
                  (filter (matches project_id status priority) (issues db')))
      as Hsorted.
    rewrite <- get_project_issues_selects in Hsorted.
    simpl in Hperm.
    destruct (issue_repository.get_project_issues db' project_id status
                priority) as [|h tl] eqn:Hlisting.
    { by apply Permutation_nil_cons in Hperm. }
    simpl. f_equal. destruct (decide (h = i)) as [|Hhi]; [done|]. exfalso.
    apply StronglySorted_cons in Hsorted as [Hhead _].
    assert (i ∈ tl) as Hitl.
    { assert (i ∈ h :: tl) as Hin by (rewrite Hperm; left).
      apply elem_of_cons in Hin as [?|?]; [congruence|done]. }
    assert (h ∈ issues db) as Hh.
    { assert (h ∈ i :: issue_repository.get_project_issues db project_id
                       status priority) as Hin by (rewrite <- Hperm; left).
      apply elem_of_cons in Hin as [?|Hin]; [congruence|].
      rewrite get_project_issues_selects, merge_sort_Permutation in Hin.
      by apply list_elem_of_filter in Hin as [_ ?]. }
    rewrite Forall_forall in Hhead, Hclock.
    specialize (Hhead i Hitl). specialize (Hclock h Hh).
    unfold created_at_desc in Hhead. simpl in Hhead. lia.
  - intros id Hne. rewrite Hlookup.
    destruct (issue_repository.get_by_id db id); [done|].
    by rewrite decide_False.
Qed.

Lemma created_issue_is_listed_first_witness :
  head (issue_repository.get_project_issues
          (issue_service.create_issue 2000 sample.db 1 sample.new_issue
             sample.alice).2 1 (Some OPEN) None)
  = Some (mkIssue 5 1 "Bug" None OPEN MEDIUM 1 2000 2000).
Proof.
  destruct (created_issue_is_listed_first 2000 sample.db 1 sample.new_issue
              sample.alice sample.P1 sample_db_well_formed eq_refl eq_refl)
    as (_ & _ & _ & Hfirst & _).
  apply (Hfirst (Some OPEN) None).
  - vm_compute. done.
  - apply (bool_decide_unpack _). by vm_compute.
Defined.

(** ** Updating *)

(** Without a net change nothing is flushed. *)
Lemma flush_same {M : Type} `{Model M} (now : Z) (obj : M) :
  flush now obj obj = obj.
Proof. unfold flush. by rewrite decide_True. Qed.

(** The values of a payload, once stored, are stored: applying the
    payload to the updated row changes nothing more. *)
Lemma Issue_patched_flush (now : Z) (i : Issue) (u : IssueUpdate) :
  Issue_patched u (flush now i (Issue_patched u i)) =
    flush now i (Issue_patched u i).
Proof.
  unfold flush. case_decide as Hsame; [congruence|].
  destruct i, u as [[|[?|]] [|[?|]] [|[?|]] [|[?|]]]; reflexivity.
Qed.

Lemma Project_patched_flush (now : Z) (p : Project) (u : ProjectUpdate) :
  Project_patched u (flush now p (Project_patched u p)) =
    flush now p (Project_patched u p).
Proof.
  unfold flush. case_decide as Hsame; [congruence|].
  destruct p, u as [[|[?|]] [|[?|]]]; reflexivity.
Qed.

(** X12.  Every partial update is idempotent.  For the owner, sending
    the same payload a second time, to any existing issue or to any
    existing project (with or without issues), returns the same row as
    the first time and leaves the database as the first request left
    it; [updated_at] is the time of the first request. *)
Theorem patch_twice_is_patch_once
    (now1 now2 : Z) (db : Database) (user : User) :
  (∀ (issue_id : Z) (i : Issue) (p : Project) (u : IssueUpdate),
     issue_repository.get_by_id db issue_id = Some i →
     project_repository.get_by_id db (issue_project_id i) = Some p →
     project_created_by p = user_id user →
     let once := issue_service.update_issue now1 db issue_id u user in
     issue_service.update_issue now2 once.2 issue_id u user = once) ∧
  (∀ (project_id : Z) (p : Project) (pu : ProjectUpdate),
     project_repository.get_by_id db project_id = Some p →
     project_created_by p = user_id user →
     let once := project_service.update_project now1 db project_id pu user in
     project_service.update_project now2 once.2 project_id pu user = once).
Proof.
  split.
  - intros issue_id i p u Hi Hp Hown.
    rewrite (update_issue_owner now1 db issue_id u user i p Hi Hp Hown).
    cbv zeta. cbn [fst snd].
    set (after := flush now1 i (Issue_patched u i)).
    destruct (flush_Issue_columns now1 i (Issue_patched u i) eq_refl)
      as (Hid & Hpid & _).
    fold after in Hid, Hpid. simpl in Hid, Hpid.
    assert (issue_id_ after = issue_id) as Hkey.
    { rewrite Hid. by apply (get_by_id_Some (issues db)) in Hi as [_ ?]. }
    rewrite (update_issue_owner now2 _ issue_id u user after p).
    + cbv zeta. subst after. rewrite Issue_patched_flush, !flush_same.
      cbn [users projects issues users_seq projects_seq issues_seq].
      by rewrite write_row_idemp.
    + by apply (get_by_id_write_row (issues db) issue_id i).
    + by rewrite Hpid.
    + done.
  - intros project_id p pu Hp Hown.
    rewrite (update_project_owner now1 db project_id pu user p Hp Hown).
    cbv zeta. cbn [fst snd].
    set (after := flush now1 p (Project_patched pu p)).
    destruct (flush_Project_columns now1 p (Project_patched pu p))
      as (Hid & _ & _ & Hcb & _).
    fold after in Hid, Hcb. simpl in Hid, Hcb.
    assert (project_id_ after = project_id) as Hkey.
    { rewrite Hid. by apply (get_by_id_Some (projects db)) in Hp as [_ ?]. }
    rewrite (update_project_owner now2 _ project_id pu user after).
    + cbv zeta. subst after. rewrite Project_patched_flush, !flush_same.
      cbn [users projects issues users_seq projects_seq issues_seq].
      by rewrite write_row_idemp.
    + by apply (get_by_id_write_row (projects db) project_id p).
    + by rewrite Hcb.
Qed.

Lemma patch_twice_is_patch_once_witness :
  (let db := mkDatabase [sample.alice] [sample.P1] [] 2 2 1 in
   let pu := mkProjectUpdate (Sent (Some "Renamed")) (Sent None) in
   project_service.update_project 3000
     (project_service.update_project 2000 db 1 pu sample.alice).2
     1 pu sample.alice
   = project_service.update_project 2000 db 1 pu sample.alice) ∧
  issue_service.update_issue 3000
    (issue_service.update_issue 2000 sample.db 2
       (mkIssueUpdate (Sent (Some "Renamed")) Unset Unset (Sent (Some LOW)))
       sample.alice).2
    2 (mkIssueUpdate (Sent (Some "Renamed")) Unset Unset (Sent (Some LOW)))
    sample.alice
  = issue_service.update_issue 2000 sample.db 2
      (mkIssueUpdate (Sent (Some "Renamed")) Unset Unset (Sent (Some LOW)))
      sample.alice.
Proof.
  split.
  - exact (proj2 (patch_twice_is_patch_once 2000 3000
                    (mkDatabase [sample.alice] [sample.P1] [] 2 2 1)
                    sample.alice)
             1 sample.P1 (mkProjectUpdate (Sent (Some "Renamed")) (Sent None))
             eq_refl eq_refl).
  - exact (proj1 (patch_twice_is_patch_once 2000 3000 sample.db sample.alice)
             2 sample.task
             sample.P1
             (mkIssueUpdate (Sent (Some "Renamed")) Unset Unset (Sent (Some LOW)))
             eq_refl eq_refl eq_refl).
Defined.

(** X13.  A request that changes nothing writes nothing.  When every field of
    the payload is absent, null, or holds the value that the issue
    already has, the owner gets the issue back as it was and the
    well-formed database is left exactly as it was: [updated_at] is not
    stamped. *)
Theorem patch_with_current_values_changes_nothing
    (now : Z) (db : Database) (issue_id : Z) (user : User)
    (i : Issue) (p : Project) (u : IssueUpdate) :
  well_formed db →
  issue_repository.get_by_id db issue_id = Some i →
  project_repository.get_by_id db (issue_project_id i) = Some p →
  project_created_by p = user_id user →
  (no_value (upd_title u) ∨ upd_title u = Sent (Some (issue_title i))) →
  (no_value (upd_description u) ∨
   Sent (issue_description i) = upd_description u) →
  (no_value (upd_status u) ∨ upd_status u = Sent (Some (issue_status i))) →
  (no_value (upd_priority u) ∨
   upd_priority u = Sent (Some (issue_priority i))) →
  issue_service.update_issue now db issue_id u user = (Return i, db).
Proof.
  intros Hwf Hi Hp Hown Ht Hd Hs Hpr.
  rewrite (update_issue_owner now db issue_id u user i p Hi Hp Hown).
  assert (Issue_patched u i = i) as Hsame.
  { unfold no_value in *.
    destruct i as [? ? title description status priority ? ? ?],
             u as [t d s pr].
    simpl in *. unfold Issue_patched. simpl.
    assert (stored id t title = title) as ->
      by (by destruct Ht as [[->| ->]| ->]).
    assert (stored Some d description = description) as ->
      by (destruct Hd as [[->| ->]| <-]; [done|done|by destruct description]).
    assert (stored id s status = status) as ->
      by (by destruct Hs as [[->| ->]| ->]).
    assert (stored id pr priority = priority) as ->
      by (by destruct Hpr as [[->| ->]| ->]).
    done. }
  cbv zeta. rewrite Hsame, flush_same. f_equal.
  destruct Hwf as (_ & _ & _ & Hnd & _).
  apply (get_by_id_Some (issues db)) in Hi as [Hin _].
  rewrite (write_row_unchanged (H := Issue_Model) (issues db) i Hnd Hin).
  by destruct db.
Qed.

Lemma patch_with_current_values_changes_nothing_witness :
  issue_service.update_issue 2000 sample.db 2
    (mkIssueUpdate (Sent None) Unset (Sent (Some IN_PROGRESS)) (Sent (Some HIGH)))
    sample.alice
  = (Return sample.task, sample.db).
Proof.
  apply (patch_with_current_values_changes_nothing 2000 sample.db 2
           sample.alice sample.task sample.P1 _ sample_db_well_formed
           eq_refl eq_refl eq_refl).
  - left. right. reflexivity.
  - left. left. reflexivity.
  - right. reflexivity.
  - right. reflexivity.
Defined.

(** X14.  An update touches one row.  Whatever the request and its outcome,
    [update_issue] leaves the users, the projects and the sequences as
    they were, keeps the number of issues, and the issues under the
    other keys are found as before; and [update_project] does the same
    to the table of the projects, leaving the issues alone. *)
Theorem updates_touch_one_row (now : Z) (db : Database) (id : Z)
    (user : User) (u : IssueUpdate) (pu : ProjectUpdate) :
  (let db' := (issue_service.update_issue now db id u user).2 in
   users db' = users db ∧ projects db' = projects db ∧
   users_seq db' = users_seq db ∧ projects_seq db' = projects_seq db ∧
   issues_seq db' = issues_seq db ∧
   length (issues db') = length (issues db) ∧
   ∀ other, other ≠ id →
     issue_repository.get_by_id db' other =
       issue_repository.get_by_id db other) ∧
  (let db' := (project_service.update_project now db id pu user).2 in
   users db' = users db ∧ issues db' = issues db ∧
   users_seq db' = users_seq db ∧ projects_seq db' = projects_seq db ∧
   issues_seq db' = issues_seq db ∧
   length (projects db') = length (projects db) ∧
   ∀ other, other ≠ id →
     project_repository.get_by_id db' other =
       project_repository.get_by_id db other).
Proof.
  split.
  - unfold issue_service.update_issue.
    destruct (issue_repository.get_by_id db id) as [i|] eqn:Hi; [|done].
    destruct (project_repository.get_by_id db (issue_project_id i));
      [|done].
    case_decide; [done|].
    unfold issue_repository.update, update. simpl.
    rewrite assign_items_IssueUpdate.
    repeat split; try done.
    + unfold write_row. by rewrite length_fmap.
    + intros other Hne.
      apply (get_by_id_write_row_ne (H := Issue_Model) (issues db)).
      destruct (flush_Issue_columns now i (Issue_patched u i) eq_refl)
        as (Hid & _).
      simpl in *. rewrite Hid.
      apply (get_by_id_Some (issues db)) in Hi as [_ Hpk]. simpl in Hpk.
      congruence.
  - unfold project_service.update_project.
    destruct (project_repository.get_by_id db id) as [p|] eqn:Hp; [|done].
    case_decide; [done|].
    unfold project_repository.update, update. simpl.
    rewrite assign_items_ProjectUpdate.
    repeat split; try done.
    + unfold write_row. by rewrite length_fmap.
    + intros other Hne.
      apply (get_by_id_write_row_ne (H := Project_Model) (projects db)).
      destruct (flush_Project_columns now p (Project_patched pu p))
        as (Hid & _).
      simpl in *. rewrite Hid.
      apply (get_by_id_Some (projects db)) in Hp as [_ Hpk]. simpl in Hpk.
      congruence.
Qed.

(** ** Registration and login *)

Lemma get_by_email_snoc (db : Database) (u : User) (seq : Z) (email : string) :
  user_repository.get_by_email
    (mkDatabase (users db ++ [u]) (projects db) (issues db)
       seq (projects_seq db) (issues_seq db)) email =
    match user_repository.get_by_email db email with
    | Some found => Some found
    | None => if decide (user_email u = email) then Some u else None
    end.
Proof.
  unfold user_repository.get_by_email. simpl. rewrite filter_app, head_app.
  destruct (head (filter (λ u0, user_email u0 = email) (users db))); [done|].
  rewrite filter_cons. by case_decide.
Qed.

(** X15.  Registration with an email that no user has, when the library
    returns a digest.  The service returns the public profile with the
    next key of the sequence; the user is then found by email, with the
    digest in place of the password; every further registration with
    that email raises [ConflictException] and writes nothing; a login
    with that email returns the bearer token when the library verifies
    the password against the digest, and the Unauthorized outcome when
    it does not; and lookups of the other emails are as before. *)
Theorem registered_user_can_log_in
    {hasher : CryptContextHash} {crypt : CryptContext} {jose : Jose}
    (now : Z) (salt : string) (db : Database) (data : UserCreate)
    (digest : string) :
  user_repository.get_by_email db (reg_email data) = None →
  password_hashing.hash salt (reg_password data) = Return digest →
  let out := registration.register now salt db data in
  let user := mkUser (users_seq db) (reg_name data) (reg_email data) digest
                     now None in
  out.1 =
    Return (mkUserResponse (reg_email data) (reg_name data) (users_seq db) now) ∧
  user_repository.get_by_email out.2 (reg_email data) = Some user ∧
  (∀ now' salt' again,
     reg_email again = reg_email data →
     registration.register now' salt' out.2 again =
       (Raise (ConflictException "Email already registered"), out.2)) ∧
  (∀ settings handler now' password token,
     password_handler.verify password digest = Return true →
     token_handler.create_token handler now'
       (<["sub" := PStr (reg_email data)]>
          (<["user_id" := PInt (users_seq db)]> ∅))
       (Some (minutes (ACCESS_TOKEN_EXPIRE_MINUTES settings))) = Return token →
     auth_service.login settings handler now' out.2 (reg_email data) password =
       Return (mkToken token "bearer")) ∧
  (∀ settings handler now' password,
     password_handler.verify password digest = Return false →
     auth_service.login settings handler now' out.2 (reg_email data) password =
       Raise (UnauthorizedException "Invalid email or password")) ∧
  (∀ email, email ≠ reg_email data →
     user_repository.get_by_email out.2 email =
       user_repository.get_by_email db email).
Proof.
  intros Hfresh Hhash out user. subst out.
  unfold registration.register. rewrite Hfresh, Hhash. simpl. fold user.
  assert (user_repository.get_by_email
            (mkDatabase (users db ++ [user]) (projects db) (issues db)
               (users_seq db + 1) (projects_seq db) (issues_seq db))
            (reg_email data) = Some user) as Hfound.
  { rewrite get_by_email_snoc, Hfresh. by rewrite decide_True. }
  split; [done|]. split; [done|]. split; [|split; [|split]].
  - intros now' salt' again Hagain. unfold registration.register.
    by rewrite Hagain, Hfound.
  - intros settings handler now' password token Hverify Htoken.
    unfold auth_service.login. rewrite Hfound. simpl.
    rewrite Hverify. simpl. by rewrite Htoken.
  - intros settings handler now' password Hverify.
    unfold auth_service.login. rewrite Hfound. simpl. by rewrite Hverify.
  - intros email Hne. rewrite get_by_email_snoc.
    destruct (user_repository.get_by_email db email); [done|].
    rewrite decide_False; [done|]. simpl. congruence.
Qed.

Lemma registered_user_can_log_in_witness :
  auth_service.login (crypt := stand_in.crypt) (jose := toy.jose)
    default_settings stand_in.handler 2100
    (registration.register (hasher := toy.hasher) 2000 "salt"
       sample.db toy.carol).2
    "carol@x.com" "pw123456"
  = Return (mkToken "jwt.carol@x.com" "bearer").
Proof.
  destruct (registered_user_can_log_in
              (hasher := toy.hasher) (crypt := stand_in.crypt)
              (jose := toy.jose)
              2000 "salt" sample.db toy.carol "$2b$12$pw123456"
              eq_refl eq_refl) as (_ & _ & _ & Hlogin & _).
  exact (Hlogin default_settings stand_in.handler 2100 "pw123456"
           "jwt.carol@x.com" eq_refl eq_refl).
Defined.

(** ** Authentication *)

(** The query of the dependency and the query of the login select the
    same users. *)
Lemma filter_subject_email (table : list User) (email : string) :
  filter (λ u, PStr (user_email u) = PStr email) table =
    filter (λ u, user_email u = email) table.
Proof. apply list_filter_iff. intros u. split; congruence. Qed.

(** X16.  Who logs in is who is authenticated.  When a login returns a token
    and the library decodes that token to a payload with the subject
    that the login gave it (the email), the dependency returns the user
    whom the login found by that email and whose digest verified the
    password. *)
Theorem login_token_authenticates
    {crypt : CryptContext} {jose : Jose}
    (settings : Settings) (handler : TokenHandler) (now now' : Z)
    (db : Database) (email password : string) (token : Token)
    (payload : gmap string pyval) :
  auth_service.login settings handler now db email password = Return token →
  token_handler.decode_token handler now' (access_token token) =
    Return (Some payload) →
  payload !! "sub" = Some (PStr email) →
  ∃ user,
    auth.call handler now' db (access_token token) = Return user ∧
    user_repository.get_by_email db email = Some user ∧
    user_email user = email ∧
    password_handler.verify password (user_hashed_password user) = Return true.
Proof.
  unfold auth_service.login, user_repository.get_by_email.
  intros Hlogin Hdecode Hsub.
  destruct (head (filter (λ u, user_email u = email) (users db)))
    as [user|] eqn:Huser; [|done].
  exists user.
  destruct (password_handler.verify password (user_hashed_password user))
    as [[|]|] eqn:Hverify; simpl in Hlogin; try done.
  split; [|split; [done|split; [|done]]].
  - unfold auth.call. rewrite Hdecode. simpl. rewrite Hsub.
    by rewrite filter_subject_email, Huser.
  - apply head_Some_elem_of in Huser.
    by apply list_elem_of_filter in Huser as [? _].
Qed.

Lemma login_token_authenticates_witness :
  ∃ user,
    auth.call (jose := toy.jose) stand_in.handler 2100 sample.db
      "jwt.alice@x.com" = Return user ∧
    user_repository.get_by_email sample.db "alice@x.com" = Some user.
Proof.
  destruct (login_token_authenticates
              (crypt := stand_in.crypt) (jose := toy.jose)
              default_settings stand_in.handler 2000 2100 sample.db
              "alice@x.com" "alice" (mkToken "jwt.alice@x.com" "bearer")
              {[ "sub" := PStr "alice@x.com" ]}
              eq_refl eq_refl eq_refl) as (user & Hcall & Hfound & _).
  exists user. exact (conj Hcall Hfound).
Defined.

(** X17.  The dependency answers 401 or lets a failure of the library through.
    Whenever it raises, it raises [UnauthorizedException], unless the
    library itself raised an exception that is not a [JWTError], which
    is then the exception raised.  It never raises [JWTError] nor
    [NotFoundException]. *)
Theorem authentication_raises_401_only
    {jose : Jose} (handler : TokenHandler) (now : Z) (db : Database)
    (jwt_token : string) (e : exn) :
  auth.call handler now db jwt_token = Raise e →
  (∃ detail, e = UnauthorizedException detail) ∨
  (jwt_decode now jwt_token (_secret_key handler) [_algorithm handler] = Raise e ∧
   ∀ msg, e ≠ JWTError msg).
Proof.
  unfold auth.call, token_handler.decode_token.
  destruct (jwt_decode now jwt_token (_secret_key handler)
              [_algorithm handler]) as [payload|e'] eqn:Hdecode; simpl.
  - destruct (payload !! "sub") as [[| | |]|]; intros He; simplify_eq; eauto;
      match type of He with
      | context [head ?l] => destruct (head l); simplify_eq; eauto
      end.
  - destruct e'; simpl; intros He; simplify_eq; eauto; by right.
Qed.

Lemma authentication_raises_401_only_witness :
  auth.call (jose := toy.jose) stand_in.handler 2100 sample.db "garbage" =
    Raise (UnauthorizedException "Invalid authentication token") ∧
  ((∃ detail, UnauthorizedException "Invalid authentication token" =
              UnauthorizedException detail) ∨
   (jwt_decode (Jose := toy.jose) 2100 "garbage"
      (_secret_key stand_in.handler) [_algorithm stand_in.handler] =
      Raise (UnauthorizedException "Invalid authentication token") ∧
    ∀ msg, UnauthorizedException "Invalid authentication token" ≠ JWTError msg)).
Proof.
  split; [reflexivity|].
  exact (authentication_raises_401_only (jose := toy.jose) stand_in.handler
           2100 sample.db "garbage" _ eq_refl).
Defined.

(** ** The projects of a user *)

(** X18.  In a well-formed database the projects listed for a user are exactly
    the projects that the user can read: a project is in the listing if
    and only if reading it under its key returns it. *)
Theorem listed_projects_are_the_readable_ones (db : Database) (user : User)
    (p : Project) :
  well_formed db →
  p ∈ project_service.get_user_projects db user ↔
  project_service.get_project db (project_id_ p) user = Return p.
Proof.
  intros (_ & _ & Hnd & _).
  unfold project_service.get_user_projects, project_service.get_project,
    ProjectResponse_model_validate.
  rewrite (list_fmap_id (A := Project)).
  unfold project_repository.get_user_projects.
  rewrite list_elem_of_filter. split.
  - intros [Hown Hin].
    pose proof (get_by_id_elem_of (H := Project_Model) (projects db) p
                  Hnd Hin) as Hget.
    unfold project_repository.get_by_id. simpl in Hget. rewrite Hget.
    rewrite decide_False; [done|]. intros Hne. by apply Hne.
  - destruct (project_repository.get_by_id db (project_id_ p)) as [q|] eqn:Hq;
      [|done].
    case_decide as Hown; [done|]. intros [= ->].
    split; [done|].
    by apply (get_by_id_Some (projects db)) in Hq as [? _].
Qed.

Lemma listed_projects_are_the_readable_ones_witness :
  sample.P2 ∈ project_service.get_user_projects sample.db sample.bob ↔
  project_service.get_project sample.db 2 sample.bob = Return sample.P2.
Proof.
  exact (listed_projects_are_the_readable_ones sample.db sample.bob sample.P2
           sample_db_well_formed).
Defined.

(** ** The expiry of a token *)

(** X19.  The [exp] claim is the handler's.  An [exp] that the caller
    put in the claims is overwritten.  A duration of zero is taken for
    no duration and gives the default one.  Any other duration, negative
    ones included, is added to the time of the call: when the sum is a
    [datetime] (years 1 to 9999) it is the [exp] of the claims given to
    the encoder, and when it is not, [create_token] raises
    [OverflowError] and the encoder is not called. *)
Theorem create_token_expiry_edge_cases
    {jose : Jose} (self : TokenHandler) (now : Z)
    (data : gmap string pyval) (supplied : pyval) (expires_delta : option Z) :
  token_handler.create_token self now (<["exp" := supplied]> data)
    expires_delta = token_handler.create_token self now data expires_delta ∧
  token_handler.create_token self now data (Some 0) =
    token_handler.create_token self now data None ∧
  (datetime_min ≤ now + 60 * _default_expire_minutes self ≤ datetime_max →
   token_handler.create_token self now data None =
     jwt_encode
       (<["exp" := PDatetime (now + 60 * _default_expire_minutes self)]> data)
       (_secret_key self) (_algorithm self)) ∧
  (∀ delta, delta ≠ 0 →
     datetime_min ≤ now + delta ≤ datetime_max →
     token_handler.create_token self now data (Some delta) =
       jwt_encode (<["exp" := PDatetime (now + delta)]> data)
                  (_secret_key self) (_algorithm self)) ∧
  (∀ delta, delta ≠ 0 →
     ¬ (datetime_min ≤ now + delta ≤ datetime_max) →
     token_handler.create_token self now data (Some delta) =
       Raise OverflowError).
Proof.
  unfold token_handler.create_token, datetime_add, minutes.
  split; [|split; [|split; [|split]]].
  - destruct expires_delta as [delta|]; repeat case_decide; simpl;
      by rewrite ?insert_insert_eq.
  - done.
  - intros Hrange. by rewrite decide_True.
  - intros delta Hdelta Hrange. by rewrite !decide_True.
  - intros delta Hdelta Hrange. rewrite decide_True by done.
    by rewrite decide_False.
Qed.

Lemma create_token_expiry_edge_cases_witness :
  token_handler.create_token (jose := toy.jose) stand_in.handler 2000
    {[ "sub" := PStr "alice@x.com" ]} (Some (-60)) =
    jwt_encode (Jose := toy.jose)
      (<["exp" := PDatetime 1940]> {[ "sub" := PStr "alice@x.com" ]})
      (_secret_key stand_in.handler) (_algorithm stand_in.handler) ∧
  token_handler.create_token (jose := toy.jose) stand_in.handler 2000
    {[ "sub" := PStr "alice@x.com" ]} (Some 300000000000) =
    Raise OverflowError ∧
  token_handler.create_token (jose := toy.jose) stand_in.handler 2000
    {[ "sub" := PStr "alice@x.com" ]} None =
    jwt_encode (Jose := toy.jose)
      (<["exp" := PDatetime 3800]> {[ "sub" := PStr "alice@x.com" ]})
      (_secret_key stand_in.handler) (_algorithm stand_in.handler).
Proof.
  destruct (create_token_expiry_edge_cases (jose := toy.jose)
              stand_in.handler 2000 {[ "sub" := PStr "alice@x.com" ]}
              PNone None) as (_ & _ & Hdefault & Hdelta & Hover).
  split; [|split].
  - refine (Hdelta (-60) _ _); [discriminate|].
    unfold datetime_min, datetime_max. lia.
  - refine (Hover 300000000000 _ _); [discriminate|].
    unfold datetime_min, datetime_max. lia.
  - apply Hdefault. unfold datetime_min, datetime_max. simpl. lia.
Defined.

(** ** The theorems without a premise, at the sample database *)

Lemma delete_removes_the_row_only_witness :
  get_by_id (delete (issues sample.db) 3).1 2 = Some sample.task.
Proof.
  destruct (delete_removes_the_row_only (issues sample.db) 3)
    as (_ & _ & Hother & _).
  refine (Hother 2 _). discriminate.
Defined.

Lemma get_all_pages_witness :
  sample.task ∈ issues sample.db.
Proof.
  destruct (get_all_pages (issues sample.db) 1 2) as (_ & Hrows & _).
  apply (Hrows sample.task). simpl. left.
Defined.

Lemma project_access_iff_owner_witness :
  project_service.get_project sample.db 1 sample.alice = Return sample.P1.
Proof.
  destruct (project_access_iff_owner sample.db 1 sample.alice) as (Hget & _).
  apply (Hget sample.P1). split; reflexivity.
Defined.

Lemma issue_access_iff_owner_witness :
  issue_service.get_issue sample.db 3 sample.alice = Return sample.chore.
Proof.
  destruct (issue_access_iff_owner sample.db 3 sample.alice) as (Hget & _).
  apply (Hget sample.chore). split; [reflexivity|].
  exists sample.P1. split; reflexivity.
Defined.

Lemma updates_touch_one_row_witness :
  issue_repository.get_by_id
    (issue_service.update_issue 2000 sample.db 1 closing sample.alice).2 2
  = Some sample.task.
Proof.
  destruct (updates_touch_one_row 2000 sample.db 1 sample.alice closing
              (mkProjectUpdate Unset Unset))
    as ((_ & _ & _ & _ & _ & _ & Hother) & _).
  refine (Hother 2 _). discriminate.
Defined.
